(** * png_to_svg: the conversion orchestrator of [src/png_to_svg.py]

    The program validates a path, opens an image with Pillow, writes a
    grayscale bitmap into a fresh temporary directory, runs the external
    [potrace] executable on it and removes the temporary files.

    The embedding is shallow: the function [png_to_svg] below follows the
    Python function line by line, in a state-and-exception monad over a
    [world] made of a file system and a trace of the effects performed.
    What the program does not implement itself (the image decoder, the
    tracing tool, the names drawn for temporary directories, the refusals
    of the operating system) is gathered in an [environment] record. *)

From Stdlib Require Import ZArith Ascii String List Bool Lia.
From stdpp Require Import base option list strings gmap.


Local Open Scope Z_scope.

(** ** Paths: [os.path.splitext] and [os.path.join] (posixpath) *)

Module Path.

(** [p.rfind(c)] with Python's convention: the last index of [c], or [-1].
    [i] is the index of the first character of [p]. *)
Fixpoint rfind_from (c : ascii) (p : string) (i : Z) : Z :=
  match p with
  | EmptyString => -1
  | String a p' =>
      let r := rfind_from c p' (i + 1) in
      if 0 <=? r then r else if Ascii.eqb a c then i else -1
  end.

Definition rfind (c : ascii) (p : string) : Z := rfind_from c p 0.

(** [p[i:i+1] != extsep]; out of range the slice is empty, hence different. *)
Definition not_dot_at (p : string) (i : Z) : bool :=
  match String.get (Z.to_nat i) p with
  | Some a => negb (Ascii.eqb a ".")
  | None => true
  end.

(** The [while filenameIndex < dotIndex] loop of [genericpath._splitext]:
    [true] when a character other than a dot is met before [dotIndex]. *)
Fixpoint skip_leading_dots (p : string) (filenameIndex dotIndex : Z)
    (fuel : nat) : bool :=
  match fuel with
  | O => false
  | S fuel' =>
      if filenameIndex <? dotIndex then
        if not_dot_at p filenameIndex then true
        else skip_leading_dots p (filenameIndex + 1) dotIndex fuel'
      else false
  end.

(** [os.path.splitext(p)] on POSIX: [sep = '/'], no [altsep], [extsep = '.']. *)
Definition splitext (p : string) : string * string :=
  let sepIndex := rfind "/" p in
  let dotIndex := rfind "." p in
  if (sepIndex <? dotIndex)
     && skip_leading_dots p (sepIndex + 1) dotIndex
          (Z.to_nat (dotIndex - (sepIndex + 1)))
  then (String.substring 0 (Z.to_nat dotIndex) p,
        String.substring (Z.to_nat dotIndex)
          (String.length p - Z.to_nat dotIndex) p)
  else (p, "").

Definition ends_with_sep (p : string) : bool :=
  match String.get (String.length p - 1) p with
  | Some a => Ascii.eqb a "/"
  | None => false
  end.

Definition starts_with_sep (p : string) : bool :=
  match p with
  | String a _ => Ascii.eqb a "/"
  | EmptyString => false
  end.

(** [os.path.join(a, b)] for two components. *)
Definition join (a b : string) : string :=
  if starts_with_sep b then b
  else if (String.length a =? 0)%nat || ends_with_sep a then a +:+ b
  else a +:+ "/" +:+ b.

(** The prefix shared by every path that [join] builds below [d]. *)
Definition below_prefix (d : string) : string :=
  if (String.length d =? 0)%nat || ends_with_sep d then d else d +:+ "/".

Definition below (d k : string) : bool := String.prefix (below_prefix d) k.

End Path.

(** ** The world the program runs in *)

(** A file system maps path strings to entries.  Paths are compared as
    strings: links, [..] and relative/absolute aliases are not modelled. *)
Inductive entry : Type :=
| Dir
| File (content : list Z).

(** A decoded Pillow image: its mode (['L'], ['RGB'], ['P'], ...), its size
    and its raster data. *)
Record image : Type := Image {
  mode : string;
  dimensions : Z * Z;
  pixels : list Z
}.

(** An image as [Image.open] returns it.  Pillow reads the header, which
    gives the mode, and leaves the raster data for the first operation that
    needs them ([img.convert], [img.save]): a file with a readable header
    and corrupt data opens, and fails later. *)
Inductive opened_image : Type :=
| Loadable (img : image)
| Truncated (m : string) (msg : string).

(** [img.mode] *)
Definition mode_of (img : opened_image) : string :=
  match img with
  | Loadable img' => mode img'
  | Truncated m _ => m
  end.

(** The Python exceptions that can reach [png_to_svg]. *)
Inductive exn : Type :=
| OSError (msg : string)
| FileNotFoundError (msg : string)
| FileExistsError (msg : string)
| IsADirectoryError (p : string)
| NotADirectoryError (p : string)
| PermissionError (p : string)
| UnidentifiedImageError (p : string)
| IndexError
| CalledProcessError (returncode : Z) (cmd : list string).

(** The three [print] calls of the function. *)
Inductive message : Type :=
| Successfully_converted (input_file output_file : string)
| Error_during_conversion (e : exn)
| Warning_could_not_clean_up (e : exn).

(** Effects, in the order they happen. *)
Inductive event : Type :=
| Printed (m : message)
| MadeDir (d : string)
| Saved (p : string) (content : list Z)
| Ran (args : list string) (returncode : Z)
| Removed (p : string)
| RemovedDir (d : string).

Record world : Type := World {
  fs : gmap string entry;
  trace : list event
}.

Inductive syscall : Type :=
| SysWrite (p : string)
| SysRemove (p : string)
| SysRmdir (p : string).

(** An external executable: from its arguments and the file system it sees,
    an exit status and, possibly, the bytes it leaves at its output path
    (a failing run may leave partial output). *)
Definition tool : Type :=
  list string -> gmap string entry -> Z * option (list Z).

(** Everything the program delegates. *)
Record environment : Type := Environment {
  tmp_names : list string;
    (* the directory names [tempfile.mkdtemp] draws, in order *)
  decode : list Z -> option image;
    (* Pillow's decoder, header and raster data; [None]: the bytes are not
       an image it can decode *)
  header : list Z -> option (string * string);
    (* for bytes that do not decode: the mode Pillow reads from their
       header and the message of the OSError it raises when it loads their
       data, or [None] when it does not identify them as an image *)
  convert_pixels : string -> string -> list Z -> list Z;
    (* raster conversion between two modes *)
  encode_bmp : image -> list Z;
    (* Pillow's BMP writer *)
  refused : syscall -> bool;
    (* the operating system refuses the call: permissions, a directory
       that is not empty, a read-only or full volume *)
  os_error : syscall -> exn;
    (* the exception a refused call raises: PermissionError, or the
       OSError of ENOTEMPTY, ENOSPC, EFBIG, ... *)
  which : string -> option tool
    (* the executables found on PATH *)
}.

(** ** State and exceptions *)

Inductive result (A : Type) : Type :=
| Return (a : A)
| Raise (e : exn).
Arguments Return {A} a.
Arguments Raise {A} e.

Definition M (A : Type) : Type := world -> result A * world.

Definition ret {A} (a : A) : M A := fun w => (Return a, w).

Definition bind {A B} (m : M A) (k : A -> M B) : M B :=
  fun w =>
    match m w with
    | (Return a, w') => k a w'
    | (Raise e, w') => (Raise e, w')
    end.

Definition raise {A} (e : exn) : M A := fun w => (Raise e, w).

(** [try: body  except Exception as e: handler e] *)
Definition try_except {A} (body : M A) (handler : exn -> M A) : M A :=
  fun w =>
    match body w with
    | (Return a, w') => (Return a, w')
    | (Raise e, w') => handler e w'
    end.

(** [try: body  finally: final]: [final] runs on both exits; an exception
    escaping [final] replaces the outcome of [body]. *)
Definition try_finally {A} (body : M A) (final : M unit) : M A :=
  fun w =>
    match body w with
    | (r, w1) =>
        match final w1 with
        | (Return _, w2) => (r, w2)
        | (Raise e, w2) => (Raise e, w2)
        end
    end.

Declare Scope py_scope.
Delimit Scope py_scope with py.
Notation "x <- m ;; k" := (bind m (fun x => k))
  (at level 100, m at next level, right associativity) : py_scope.
Notation "m ;;; k" := (bind m (fun _ => k))
  (at level 100, right associativity) : py_scope.
Local Open Scope py_scope.

(** An effect: the file system it leaves, and its record in the trace. *)
Definition effect (files : gmap string entry) (e : event) (w : world) : world :=
  World files (trace w ++ [e]).

Definition printed (m : message) (w : world) : world :=
  effect (fs w) (Printed m) w.

Definition made_dir (d : string) (w : world) : world :=
  effect (<[d := Dir]> (fs w)) (MadeDir d) w.

Definition written (p : string) (c : list Z) (w : world) : world :=
  effect (<[p := File c]> (fs w)) (Saved p c) w.

Definition removed (p : string) (w : world) : world :=
  effect (delete p (fs w)) (Removed p) w.

Definition removed_dir (d : string) (w : world) : world :=
  effect (delete d (fs w)) (RemovedDir d) w.

(** ** The library calls *)

Definition print (m : message) : M unit :=
  fun w => (Return tt, printed m w).

Definition os_path_exists (p : string) : M bool :=
  fun w => (Return (match fs w !! p with Some _ => true | None => false end), w).

(** A name is usable for a new directory when nothing exists at it nor
    below it: the directory [mkdtemp] returns is new and empty. *)
Definition unused (files : gmap string entry) (d : string) : bool :=
  match files !! d with
  | Some _ => false
  | None => forallb (fun k => negb (Path.below d k)) (map fst (map_to_list files))
  end.

Definition tempfile_mkdtemp (env : environment) : M string :=
  fun w =>
    match List.find (unused (fs w)) (tmp_names env) with
    | Some d =>
        (Return d, made_dir d w)
    | None =>
        (Raise (FileExistsError "No usable temporary directory name found"), w)
    end.

Definition Image_open (env : environment) (p : string) : M opened_image :=
  fun w =>
    match fs w !! p with
    | None =>
        (Raise (FileNotFoundError
                  ("[Errno 2] No such file or directory: '" +:+ p +:+ "'")), w)
    | Some Dir => (Raise (IsADirectoryError p), w)
    | Some (File c) =>
        match decode env c with
        | Some img => (Return (Loadable img), w)
        | None =>
            match header env c with
            | Some (m, msg) => (Return (Truncated m msg), w)
            | None => (Raise (UnidentifiedImageError p), w)
            end
        end
    end.

(** [img.convert(m)]: same size, mode [m], raster converted. *)
Definition Image_convert (env : environment) (img : image) (m : string) : image :=
  Image m (dimensions img) (convert_pixels env (mode img) m (pixels img)).

(** Writing the BMP file of decoded raster data.  A refused write leaves
    no file: Pillow removes the file it created when the write fails. *)
Definition Image_save (env : environment) (img : image) (p : string) : M unit :=
  fun w =>
    if refused env (SysWrite p) then (Raise (os_error env (SysWrite p)), w)
    else match fs w !! p with
         | Some Dir => (Raise (IsADirectoryError p), w)
         | _ => (Return tt, written p (encode_bmp env img) w)
         end.

(** [img.load()], which [img.convert] and [img.save] call first. *)
Definition img_load (img : opened_image) : M image :=
  match img with
  | Loadable img' => ret img'
  | Truncated _ msg => raise (OSError msg)
  end.

(** [img.convert(m)] *)
Definition img_convert (env : environment) (img : opened_image) (m : string)
    : M opened_image :=
  img' <- img_load img ;;
  ret (Loadable (Image_convert env img' m)).

(** [img.save(p)]: the data are loaded before the file is opened. *)
Definition img_save (env : environment) (img : opened_image) (p : string)
    : M unit :=
  img' <- img_load img ;;
  Image_save env img' p.

(** The path following [--output] on a command line. *)
Fixpoint output_option (args : list string) : option string :=
  match args with
  | a :: rest =>
      if String.eqb a "--output" then
        match rest with o :: _ => Some o | [] => None end
      else output_option rest
  | [] => None
  end.

(** What a run leaves behind: the bytes written at the output path, unless
    that path is a directory.  The write reaches the entry of that very
    path string: as everywhere in this file system, another spelling of
    the path or a link to the file is another key. *)
Definition tool_write (args : list string) (out : option (list Z))
    (files : gmap string entry) : gmap string entry :=
  match out, output_option args with
  | Some c, Some p =>
      match files !! p with
      | Some Dir => files
      | _ => <[p := File c]> files
      end
  | _, _ => files
  end.

Definition ran (args : list string) (returncode : Z) (out : option (list Z))
    (w : world) : world :=
  effect (tool_write args out (fs w)) (Ran args returncode) w.

(** [subprocess.run(args, check=True)] *)
Definition subprocess_run (env : environment) (args : list string) : M unit :=
  fun w =>
    match args with
    | [] => (Raise IndexError, w)
    | prog :: _ =>
        match which env prog with
        | None =>
            (Raise (FileNotFoundError
                      ("[Errno 2] No such file or directory: '" +:+ prog +:+ "'")), w)
        | Some run =>
            match run args (fs w) with
            | (returncode, out) =>
                if returncode =? 0 then (Return tt, ran args returncode out w)
                else (Raise (CalledProcessError returncode args),
                      ran args returncode out w)
            end
        end
    end.

Definition os_remove (env : environment) (p : string) : M unit :=
  fun w =>
    if refused env (SysRemove p) then (Raise (os_error env (SysRemove p)), w)
    else match fs w !! p with
         | None =>
             (Raise (FileNotFoundError
                       ("[Errno 2] No such file or directory: '" +:+ p +:+ "'")), w)
         | Some Dir => (Raise (IsADirectoryError p), w)
         | Some (File _) =>
             (Return tt, removed p w)
         end.

Definition os_rmdir (env : environment) (d : string) : M unit :=
  fun w =>
    if refused env (SysRmdir d) then (Raise (os_error env (SysRmdir d)), w)
    else match fs w !! d with
         | None =>
             (Raise (FileNotFoundError
                       ("[Errno 2] No such file or directory: '" +:+ d +:+ "'")), w)
         | Some (File _) => (Raise (NotADirectoryError d), w)
         | Some Dir =>
             (Return tt, removed_dir d w)
         end.

(** ** [png_to_svg] *)

(** Lines 68-69: the default output file. *)
Definition default_output (input_file : string) (output_file : option string)
    : string :=
  match output_file with
  | None => fst (Path.splitext input_file) +:+ ".svg"
  | Some o => o
  end.

(** Lines 76-94: the body of the [try]. *)
Definition conversion (env : environment) (input_file output_file temp_dir : string)
    : M string :=
  (* Step 1: open the PNG and convert to BMP *)
  img <- Image_open env input_file ;;
  (* convert to grayscale if it's not already *)
  img <- (if negb (String.eqb (mode_of img) "L")
          then img_convert env img "L" else ret img) ;;
  (* save as BMP in temp directory *)
  let bmp_path := Path.join temp_dir "temp.bmp" in
  img_save env img bmp_path ;;;
  (* Step 2: use potrace to convert BMP to SVG *)
  subprocess_run env ["potrace"; "--svg"; "--output"; output_file; bmp_path] ;;;
  print (Successfully_converted input_file output_file) ;;;
  ret output_file.

(** Lines 104-107: the body of the inner [try] of the [finally]. *)
Definition remove_temporary_files (env : environment) (temp_dir : string) : M unit :=
  let bmp_path := Path.join temp_dir "temp.bmp" in
  found <- os_path_exists bmp_path ;;
  (if found then os_remove env bmp_path else ret tt) ;;;
  os_rmdir env temp_dir.

(** Lines 100-109: the [finally] block. *)
Definition cleanup (env : environment) (temp_dir : string) (keep_temp_files : bool)
    : M unit :=
  if negb keep_temp_files then
    try_except (remove_temporary_files env temp_dir)
      (fun e => print (Warning_could_not_clean_up e))
  else ret tt.

(** Lines 74-98: the [try] with its [except Exception] clause, which
    prints the error and raises it again. *)
Definition guarded_conversion (env : environment)
    (input_file output_file temp_dir : string) : M string :=
  try_except
    (conversion env input_file output_file temp_dir)
    (fun e => print (Error_during_conversion e) ;;; raise e).

Definition png_to_svg (env : environment) (input_file : string)
    (output_file : option string) (keep_temp_files : bool) : M string :=
  (* validate input file *)
  found <- os_path_exists input_file ;;
  if negb found then
    raise (FileNotFoundError ("Input file not found: " +:+ input_file))
  else
    (* set default output file if none specified *)
    let output_file := default_output input_file output_file in
    (* create a temporary directory for processing *)
    temp_dir <- tempfile_mkdtemp env ;;
    try_finally
      (guarded_conversion env input_file output_file temp_dir)
      (cleanup env temp_dir keep_temp_files).

(** ** Vocabulary of the statements *)

(** [c] occurs in [s]. *)
Fixpoint occurs (c : ascii) (s : string) : bool :=
  match s with
  | EmptyString => false
  | String a s' => Ascii.eqb a c || occurs c s'
  end.

(** [s] is made of dots only (the empty string included). *)
Fixpoint all_dots (s : string) : bool :=
  match s with
  | EmptyString => true
  | String a s' => Ascii.eqb a "." && all_dots s'
  end.

(** A directory part: empty, or ending with the separator. *)
Definition dir_part (s : string) : Prop :=
  s = "" \/ exists d, s = d +:+ "/".

(** A file name with something else than dots, and no separator. *)
Definition plain_name (s : string) : Prop :=
  occurs "/" s = false /\ all_dots s = false.

(** An extension body: neither a dot nor a separator. *)
Definition plain_ext (s : string) : Prop :=
  occurs "." s = false /\ occurs "/" s = false.

(** The bitmap [png_to_svg] writes in its temporary directory. *)
Definition bmp_path_of (temp_dir : string) : string := Path.join temp_dir "temp.bmp".

(** The image [png_to_svg] saves for a decoded image (lines 79-80). *)
Definition grayscale (env : environment) (img : image) : image :=
  if negb (String.eqb (mode img) "L") then Image_convert env img "L" else img.

(** The directory [tempfile.mkdtemp] would create in a file system. *)
Definition next_temp_dir (env : environment) (files : gmap string entry)
    : option string :=
  List.find (unused files) (tmp_names env).

(** The command line of line 87. *)
Definition potrace_args (output_file bmp_path : string) : list string :=
  ["potrace"; "--svg"; "--output"; output_file; bmp_path].

(** Neither the bitmap nor the directory of a conversion is left. *)
Definition scratch_gone (temp_dir : string) (w : world) : Prop :=
  fs w !! bmp_path_of temp_dir = None /\ fs w !! temp_dir = None.

Definition is_file (e : option entry) : bool :=
  match e with Some (File _) => true | _ => false end.

(** The error with which step 1 fails to read an image from an existing
    entry, if it does: at [Image.open] for a directory or a file Pillow does
    not identify, at the first load of the data ([img.convert] or
    [img.save]) for a file with a readable header and corrupt data. *)
Definition decode_failure (env : environment) (p : string) (e : entry)
    : option exn :=
  match e with
  | Dir => Some (IsADirectoryError p)
  | File c =>
      match decode env c with
      | Some _ => None
      | None =>
          match header env c with
          | Some (_, msg) => Some (OSError msg)
          | None => Some (UnidentifiedImageError p)
          end
      end
  end.

(** The bytes step 1 leaves at the bitmap path, if it gets that far. *)
Definition staged (env : environment) (input_file temp_dir : string)
    (files : gmap string entry) : option (list Z) :=
  match files !! input_file with
  | Some (File c) =>
      match decode env c with
      | Some img =>
          if refused env (SysWrite (bmp_path_of temp_dir)) then None
          else Some (encode_bmp env (grayscale env img))
      | None => None
      end
  | _ => None
  end.

(** The world once the bitmap of [img] is saved in the new directory. *)
Definition bitmap_saved (env : environment) (img : image) (temp_dir : string)
    (w : world) : world :=
  written (bmp_path_of temp_dir) (encode_bmp env (grayscale env img))
    (made_dir temp_dir w).

(** The runs of external executables recorded in a trace. *)
Fixpoint runs (t : list event) : list (list string * Z) :=
  match t with
  | [] => []
  | Ran args returncode :: t' => (args, returncode) :: runs t'
  | _ :: t' => runs t'
  end.

(** The exit status an exception carries ([e.returncode]). *)
Definition exit_status (e : exn) : option Z :=
  match e with
  | CalledProcessError returncode _ => Some returncode
  | _ => None
  end.

(** The operating system lets the clean-up remove what it has to. *)
Definition removal_allowed (env : environment) (temp_dir : string) : Prop :=
  refused env (SysRemove (bmp_path_of temp_dir)) = false
  /\ refused env (SysRmdir temp_dir) = false.

(** What holds of the file system when the guarded conversion is over,
    whatever its outcome: the directory is there, the bitmap is there when
    step 1 saved it, and nothing else than the output file has changed. *)
Definition conversion_post (env : environment)
    (input_file output_file temp_dir : string) (w w1 : world) : Prop :=
  fs w1 !! temp_dir = Some Dir
  /\ match staged env input_file temp_dir (fs w) with
     | None => fs w1 !! bmp_path_of temp_dir = None
     | Some b =>
         is_file (fs w1 !! bmp_path_of temp_dir) = true
         /\ (output_file <> bmp_path_of temp_dir ->
             fs w1 !! bmp_path_of temp_dir = Some (File b))
     end
  /\ (forall k, k <> temp_dir -> k <> bmp_path_of temp_dir -> k <> output_file ->
      fs w1 !! k = fs w !! k).

(** The trace of [w'] continues the trace of [w]. *)
Definition continues (w w' : world) : Prop :=
  exists rest, trace w' = (trace w ++ rest)%list.

(** The same, and no executable was run in between. *)
Definition continues_without_run (w w' : world) : Prop :=
  exists rest, trace w' = (trace w ++ rest)%list /\ runs rest = [].

(** ** Sample environments and worlds *)

(** A toy decoder: a leading 1 announces RGB triples, a leading 2 gray
    levels; anything else is not an image. *)
Definition sample_decode (c : list Z) : option image :=
  match c with
  | 1 :: px => Some (Image "RGB" (1, 1) px)
  | 2 :: px => Some (Image "L" (1, 1) px)
  | _ => None
  end.

(** The ITU-R 601-2 luma transform Pillow documents for RGB to L. *)
Fixpoint luma (px : list Z) : list Z :=
  match px with
  | r :: g :: b :: px' => (r * 299 + g * 587 + b * 114) / 1000 :: luma px'
  | _ => []
  end.

Definition sample_bmp (img : image) : list Z := 66 :: 77 :: pixels img.

Definition potrace_ok : tool := fun _ _ => (0, Some [60; 115; 118; 103; 62]).

Definition potrace_fails : tool := fun _ _ => (2, Some [60; 115]).

Definition allow_all : syscall -> bool := fun _ => false.

Definition refuse_rmdir : syscall -> bool :=
  fun s => match s with SysRmdir _ => true | _ => false end.

(** A leading 3 or 4 is a readable header (RGB, L) before corrupt data. *)
Definition sample_header (c : list Z) : option (string * string) :=
  match c with
  | 3 :: _ => Some ("RGB", "image file is truncated")
  | 4 :: _ => Some ("L", "image file is truncated")
  | _ => None
  end.

Definition permission_error (s : syscall) : exn :=
  match s with
  | SysWrite p | SysRemove p | SysRmdir p => PermissionError p
  end.

Definition sample_env (refuse : syscall -> bool) (potrace : option tool)
    : environment :=
  Environment ["/tmp/tmpa1b2c3"] sample_decode sample_header (fun _ _ => luma)
    sample_bmp refuse permission_error
    (fun prog => if String.eqb prog "potrace" then potrace else None).

(** The same with a second name for [tempfile.mkdtemp] to draw. *)
Definition later_env (refuse : syscall -> bool) (potrace : option tool)
    : environment :=
  Environment ["/tmp/tmpa1b2c3"; "/tmp/tmpd4e5f6"] sample_decode sample_header
    (fun _ _ => luma) sample_bmp refuse permission_error
    (fun prog => if String.eqb prog "potrace" then potrace else None).

Definition sample_world : world :=
  World (<["photo.png" := File [1; 200; 100; 50]]>
           (<["art.png" := File [2; 128]]>
              (<["bad.png" := File [9; 9]]>
                 (<["scan.svg" := File [2; 77]]>
                    (<["out" := Dir]> ∅))))) [].

(** [sample_world] with two files whose header reads and whose data do
    not. *)
Definition truncated_world : world :=
  World (<["cut.png" := File [3; 200; 100]]>
           (<["gray.png" := File [4; 128]]> (fs sample_world))) [].

(** ** Outcomes of the guarded conversion *)

(** The messages printed, in order. *)
Fixpoint prints (t : list event) : list message :=
  match t with
  | [] => []
  | Printed m :: t' => m :: prints t'
  | _ :: t' => prints t'
  end.

(** The five ways lines 74-98 can end once the directory is made, each
    with the result and the world it leaves. *)
Inductive conversion_outcome (env : environment)
    (input_file output_file temp_dir : string) (w : world)
    : result string -> world -> Prop :=
| Decode_failed e x :
    fs w !! input_file = Some e ->
    decode_failure env input_file e = Some x ->
    conversion_outcome env input_file output_file temp_dir w
      (Raise x) (printed (Error_during_conversion x) (made_dir temp_dir w))
| Save_refused c img :
    fs w !! input_file = Some (File c) ->
    decode env c = Some img ->
    refused env (SysWrite (bmp_path_of temp_dir)) = true ->
    conversion_outcome env input_file output_file temp_dir w
      (Raise (os_error env (SysWrite (bmp_path_of temp_dir))))
      (printed (Error_during_conversion
                  (os_error env (SysWrite (bmp_path_of temp_dir))))
         (made_dir temp_dir w))
| Tool_missing c img :
    fs w !! input_file = Some (File c) ->
    decode env c = Some img ->
    refused env (SysWrite (bmp_path_of temp_dir)) = false ->
    which env "potrace" = None ->
    conversion_outcome env input_file output_file temp_dir w
      (Raise (FileNotFoundError
                "[Errno 2] No such file or directory: 'potrace'"))
      (printed (Error_during_conversion
                  (FileNotFoundError
                     "[Errno 2] No such file or directory: 'potrace'"))
         (bitmap_saved env img temp_dir w))
| Tool_failed c img run returncode out :
    fs w !! input_file = Some (File c) ->
    decode env c = Some img ->
    refused env (SysWrite (bmp_path_of temp_dir)) = false ->
    which env "potrace" = Some run ->
    run (potrace_args output_file (bmp_path_of temp_dir))
      (fs (bitmap_saved env img temp_dir w)) = (returncode, out) ->
    returncode <> 0 ->
    conversion_outcome env input_file output_file temp_dir w
      (Raise (CalledProcessError returncode
                (potrace_args output_file (bmp_path_of temp_dir))))
      (printed (Error_during_conversion
                  (CalledProcessError returncode
                     (potrace_args output_file (bmp_path_of temp_dir))))
         (ran (potrace_args output_file (bmp_path_of temp_dir)) returncode out
            (bitmap_saved env img temp_dir w)))
| Tool_succeeded c img run out :
    fs w !! input_file = Some (File c) ->
    decode env c = Some img ->
    refused env (SysWrite (bmp_path_of temp_dir)) = false ->
    which env "potrace" = Some run ->
    run (potrace_args output_file (bmp_path_of temp_dir))
      (fs (bitmap_saved env img temp_dir w)) = (0, out) ->
    conversion_outcome env input_file output_file temp_dir w
      (Return output_file)
      (printed (Successfully_converted input_file output_file)
         (ran (potrace_args output_file (bmp_path_of temp_dir)) 0 out
            (bitmap_saved env img temp_dir w))).

(** The line the guarded conversion prints for its result. *)
Definition report (input_file : string) (r : result string) : message :=
  match r with
  | Return p => Successfully_converted input_file p
  | Raise e => Error_during_conversion e
  end.

(** At most one message, a clean-up warning. *)
Definition warning_only (ms : list message) : Prop :=
  ms = [] \/ exists e, ms = [Warning_could_not_clean_up e].

(** The operating system lets the clean-up of any directory [mkdtemp] may
    make go through. *)
Definition removals_allowed (env : environment) (files : gmap string entry)
    : Prop :=
  forall temp_dir,
    next_temp_dir env files = Some temp_dir -> removal_allowed env temp_dir.


(** ** Paths *)

Section PathFacts.

Local Lemma append_cons a s t : String a s +:+ t = String a (s +:+ t).
Proof. reflexivity. Qed.

Local Lemma append_empty t : "" +:+ t = t.
Proof. reflexivity. Qed.

Lemma append_assoc s t u : (s +:+ t) +:+ u = s +:+ t +:+ u.
Proof.
  induction s as [|a s IH].
  - reflexivity.
  - rewrite !append_cons. now rewrite IH.
Qed.

Lemma length_append s t :
  String.length (s +:+ t) = (String.length s + String.length t)%nat.
Proof.
  induction s as [|a s IH]; [reflexivity|].
  rewrite append_cons. cbn [String.length]. now rewrite IH.
Qed.

Lemma rfind_from_absent c s i :
  occurs c s = false -> Path.rfind_from c s i = -1.
Proof.
  revert i. induction s as [|a s IH]; intros i H; [reflexivity|].
  cbn [occurs] in H. apply orb_false_iff in H as [Ha Hs].
  cbn [Path.rfind_from]. rewrite (IH _ Hs), Ha. reflexivity.
Qed.

Lemma rfind_from_app_absent c s t i :
  occurs c t = false ->
  Path.rfind_from c (s +:+ t) i = Path.rfind_from c s i.
Proof.
  intros Ht. revert i. induction s as [|a s IH]; intros i.
  - rewrite append_empty. now rewrite rfind_from_absent.
  - rewrite append_cons. cbn [Path.rfind_from]. now rewrite IH.
Qed.

(** The last occurrence: [c] followed by a string without [c]. *)
Lemma rfind_from_last c s t i :
  0 <= i -> occurs c t = false ->
  Path.rfind_from c (s +:+ String c t) i = i + Z.of_nat (String.length s).
Proof.
  intros Hi Ht. revert i Hi. induction s as [|a s IH]; intros i Hi.
  - rewrite append_empty. cbn [Path.rfind_from String.length].
    rewrite (rfind_from_absent _ _ _ Ht), Ascii.eqb_refl. cbn. lia.
  - rewrite append_cons. cbn [Path.rfind_from String.length].
    rewrite IH by lia.
    destruct (Z.leb_spec 0 (i + 1 + Z.of_nat (String.length s))); lia.
Qed.

Lemma get_append_length s a t :
  String.get (String.length s) (s +:+ String a t) = Some a.
Proof.
  induction s as [|b s IH]; [reflexivity|].
  rewrite append_cons. cbn [String.length String.get]. exact IH.
Qed.

Lemma skip_leading_dots_name pre name post :
  Path.skip_leading_dots (pre +:+ name +:+ post)
    (Z.of_nat (String.length pre))
    (Z.of_nat (String.length pre) + Z.of_nat (String.length name))
    (String.length name)
  = negb (all_dots name).
Proof.
  revert pre. induction name as [|a name IH]; intros pre; [reflexivity|].
  cbn [Path.skip_leading_dots String.length all_dots].
  destruct (Z.ltb_spec (Z.of_nat (String.length pre))
              (Z.of_nat (String.length pre)
               + Z.of_nat (S (String.length name)))) as [_|Hge]; [|lia].
  unfold Path.not_dot_at. rewrite Nat2Z.id, append_cons, get_append_length.
  destruct (Ascii.eqb a ".") eqn:Ha; [|reflexivity].
  cbn [negb andb].
  specialize (IH (pre +:+ String a "")).
  rewrite append_assoc, append_cons, append_empty, length_append in IH.
  cbn [String.length] in IH.
  replace (Z.of_nat (String.length pre) + 1)
    with (Z.of_nat (String.length pre + 1)) by lia.
  replace (Z.of_nat (String.length pre)
           + Z.of_nat (S (String.length name)))
    with (Z.of_nat (String.length pre + 1)
          + Z.of_nat (String.length name)) by lia.
  exact IH.
Qed.

Lemma substring_append_l s t :
  String.substring 0 (String.length s) (s +:+ t) = s.
Proof.
  induction s as [|a s IH].
  - rewrite append_empty. destruct t; reflexivity.
  - rewrite append_cons. cbn [String.length String.substring]. now rewrite IH.
Qed.

Lemma substring_append_r s t :
  String.substring (String.length s) (String.length t) (s +:+ t) = t.
Proof.
  induction s as [|a s IH].
  - rewrite append_empty. cbn [String.length].
    induction t as [|b t IHt]; [reflexivity|].
    cbn [String.length String.substring]. now rewrite IHt.
  - rewrite append_cons. cbn [String.length String.substring]. exact IH.
Qed.

Lemma rfind_sep_dir_part dir :
  dir_part dir -> Path.rfind "/" dir + 1 = Z.of_nat (String.length dir).
Proof.
  intros [->|[d ->]]; [reflexivity|].
  unfold Path.rfind. rewrite rfind_from_last by (reflexivity || lia).
  rewrite length_append. cbn [String.length]. lia.
Qed.

(** [splitext] on [dir/name.ext]: the root is [dir/name]. *)
Lemma splitext_name_ext dir name ext :
  dir_part dir -> plain_name name -> plain_ext ext ->
  Path.splitext (dir +:+ name +:+ "." +:+ ext) = (dir +:+ name, "." +:+ ext).
Proof.
  intros Hdir [Hsep Hdots] [Hdot Hsep'].
  assert (Hs : Path.rfind "/" (dir +:+ name +:+ "." +:+ ext) + 1
               = Z.of_nat (String.length dir)).
  { unfold Path.rfind. rewrite rfind_from_app_absent.
    - now apply rfind_sep_dir_part.
    - clear -Hsep Hsep'. induction name as [|a name IH].
      + rewrite append_empty, append_cons, append_empty. cbn [occurs].
        rewrite Hsep'. reflexivity.
      + rewrite append_cons. cbn [occurs] in *.
        apply orb_false_iff in Hsep as [-> Hn]. now rewrite IH. }
  assert (Hd : Path.rfind "." (dir +:+ name +:+ "." +:+ ext)
               = Z.of_nat (String.length (dir +:+ name))).
  { unfold Path.rfind. rewrite <- append_assoc.
    rewrite append_cons, append_empty.
    rewrite rfind_from_last by (assumption || lia). lia. }
  unfold Path.splitext. rewrite Hd.
  replace (Path.rfind "/" (dir +:+ name +:+ "." +:+ ext))
    with (Z.of_nat (String.length dir) - 1) by lia.
  replace (Z.of_nat (String.length dir) - 1 + 1)
    with (Z.of_nat (String.length dir)) by lia.
  rewrite length_append.
  assert (Hlen : (0 < String.length name)%nat).
  { destruct name; [discriminate|cbn; lia]. }
  replace (Z.of_nat (String.length dir) - 1
           <? Z.of_nat (String.length dir + String.length name)) with true
    by (symmetry; apply Z.ltb_lt; lia).
  replace (Z.to_nat (Z.of_nat (String.length dir + String.length name)
                     - Z.of_nat (String.length dir)))
    with (String.length name) by lia.
  replace (Z.of_nat (String.length dir + String.length name))
    with (Z.of_nat (String.length dir) + Z.of_nat (String.length name)) by lia.
  rewrite skip_leading_dots_name, Hdots. cbn [negb andb].
  replace (Z.to_nat (Z.of_nat (String.length dir) + Z.of_nat (String.length name)))
    with (String.length (dir +:+ name)) by (rewrite length_append; lia).
  rewrite <- (append_assoc dir name).
  rewrite substring_append_l.
  replace (String.length ((dir +:+ name) +:+ "." +:+ ext)
           - String.length (dir +:+ name))%nat
    with (String.length ("." +:+ ext))
    by (rewrite (length_append (dir +:+ name)); lia).
  now rewrite substring_append_r.
Qed.

End PathFacts.
Example splitext_photo : Path.splitext "photo.png" = ("photo", ".png").
Proof. reflexivity. Qed.
Example splitext_dir : Path.splitext "a.b/c" = ("a.b/c", "").
Proof. reflexivity. Qed.
Example splitext_hidden : Path.splitext "dir/..bashrc" = ("dir/..bashrc", "").
Proof. reflexivity. Qed.
Example splitext_hidden2 : Path.splitext "dir/.x.tar.gz" = ("dir/.x.tar", ".gz").
Proof. reflexivity. Qed.
Example splitext_trailing : Path.splitext "a." = ("a", ".").
Proof. reflexivity. Qed.
Example join_tmp : Path.join "/tmp/tmpab12" "temp.bmp" = "/tmp/tmpab12/temp.bmp".
Proof. reflexivity. Qed.


(** ** Temporary names *)

Lemma prefix_append s t : String.prefix s (s +:+ t) = true.
Proof.
  induction s as [|a s IH]; [destruct t; reflexivity|].
  change (String a s +:+ t) with (String a (s +:+ t)).
  cbn [String.prefix]. destruct (ascii_dec a a); [exact IH|congruence].
Qed.

Lemma bmp_path_below_prefix d :
  bmp_path_of d = Path.below_prefix d +:+ "temp.bmp".
Proof.
  unfold bmp_path_of, Path.join, Path.below_prefix. cbn [Path.starts_with_sep].
  change (Ascii.eqb "t" "/") with false. cbv iota.
  destruct ((String.length d =? 0)%nat || Path.ends_with_sep d); [reflexivity|].
  now rewrite append_assoc.
Qed.

Lemma below_bmp_path d : Path.below d (bmp_path_of d) = true.
Proof. unfold Path.below. rewrite bmp_path_below_prefix. apply prefix_append. Qed.

Lemma bmp_path_ne d : bmp_path_of d <> d.
Proof.
  intros H. apply (f_equal String.length) in H.
  rewrite bmp_path_below_prefix, length_append in H.
  unfold Path.below_prefix in H.
  destruct ((String.length d =? 0)%nat || Path.ends_with_sep d);
    [|rewrite length_append in H]; cbn [String.length] in H; lia.
Qed.

Lemma unused_absent (files : gmap string entry) d :
  unused files d = true -> files !! d = None.
Proof. unfold unused. destruct (files !! d); [discriminate|reflexivity]. Qed.

Lemma unused_below (files : gmap string entry) d k :
  unused files d = true -> Path.below d k = true -> files !! k = None.
Proof.
  unfold unused. intros Hu Hb.
  destruct (files !! d); [discriminate|].
  destruct (files !! k) as [e|] eqn:Hk; [|reflexivity].
  rewrite forallb_forall in Hu.
  specialize (Hu k). rewrite Hb in Hu. cbn in Hu.
  assert (In k (map fst (map_to_list files))) as HIn;
    [|specialize (Hu HIn); discriminate].
  apply in_map_iff. exists (k, e). split; [reflexivity|].
  apply list_elem_of_In, elem_of_map_to_list, Hk.
Qed.

Lemma next_temp_dir_unused env files d :
  next_temp_dir env files = Some d -> unused files d = true.
Proof. unfold next_temp_dir. intros H. now apply find_some in H. Qed.

Lemma next_temp_dir_fresh env (files : gmap string entry) d :
  next_temp_dir env files = Some d ->
  files !! d = None /\ files !! bmp_path_of d = None.
Proof.
  intros H%next_temp_dir_unused. split.
  - now apply unused_absent.
  - eapply unused_below; [eassumption|apply below_bmp_path].
Qed.

(** ** One step at a time *)

Lemma bind_return {A B} (m : M A) (k : A -> M B) w a w' :
  m w = (Return a, w') -> bind m k w = k a w'.
Proof. unfold bind. now intros ->. Qed.

Lemma bind_raise {A B} (m : M A) (k : A -> M B) w e w' :
  m w = (Raise e, w') -> bind m k w = (Raise e, w').
Proof. unfold bind. now intros ->. Qed.

Lemma Image_save_fresh env img p w :
  refused env (SysWrite p) = false -> fs w !! p = None ->
  Image_save env img p w = (Return tt, written p (encode_bmp env img) w).
Proof. unfold Image_save. now intros -> ->. Qed.

(** The [finally] block never raises: what escapes its inner [try] is
    printed. *)
Lemma cleanup_returns env temp_dir keep w :
  exists w', cleanup env temp_dir keep w = (Return tt, w').
Proof.
  unfold cleanup. destruct keep; cbn [negb].
  - now exists w.
  - unfold try_except.
    destruct (remove_temporary_files env temp_dir w) as [[[]|e] w'];
      eexists; reflexivity.
Qed.

Lemma cleanup_raised env temp_dir w e w' :
  remove_temporary_files env temp_dir w = (Raise e, w') ->
  cleanup env temp_dir false w
  = (Return tt, printed (Warning_could_not_clean_up e) w').
Proof. unfold cleanup, try_except. cbn [negb]. now intros ->. Qed.

Lemma cleanup_done env temp_dir w w' :
  remove_temporary_files env temp_dir w = (Return tt, w') ->
  cleanup env temp_dir false w = (Return tt, w').
Proof. unfold cleanup, try_except. cbn [negb]. now intros ->. Qed.

(** The function, once the input exists and a directory was made. *)
Lemma png_to_svg_reached env input_file output_file keep w temp_dir :
  is_Some (fs w !! input_file) ->
  next_temp_dir env (fs w) = Some temp_dir ->
  png_to_svg env input_file output_file keep w
  = try_finally
      (guarded_conversion env input_file
         (default_output input_file output_file) temp_dir)
      (cleanup env temp_dir keep) (made_dir temp_dir w).
Proof.
  intros [e He] Htmp. unfold png_to_svg, bind at 1, os_path_exists.
  rewrite He. cbn [negb]. unfold bind at 1, tempfile_mkdtemp.
  unfold next_temp_dir in Htmp. now rewrite Htmp.
Qed.

Lemma png_to_svg_missing_input env input_file output_file keep w :
  fs w !! input_file = None ->
  png_to_svg env input_file output_file keep w
  = (Raise (FileNotFoundError ("Input file not found: " +:+ input_file)), w).
Proof.
  intros H. unfold png_to_svg, bind, os_path_exists. now rewrite H.
Qed.

Lemma png_to_svg_no_temp_dir env input_file output_file keep w :
  is_Some (fs w !! input_file) ->
  next_temp_dir env (fs w) = None ->
  png_to_svg env input_file output_file keep w
  = (Raise (FileExistsError "No usable temporary directory name found"), w).
Proof.
  intros [e He] Htmp. unfold png_to_svg, bind at 1, os_path_exists.
  rewrite He. cbn [negb]. unfold bind at 1, tempfile_mkdtemp.
  unfold next_temp_dir in Htmp. now rewrite Htmp.
Qed.

(** The outcome of the call is the outcome of the guarded conversion. *)
Lemma try_finally_cleanup {A} (body : M A) env temp_dir keep w r w1 :
  body w = (r, w1) ->
  try_finally body (cleanup env temp_dir keep) w
  = (r, snd (cleanup env temp_dir keep w1)).
Proof.
  intros Hb. unfold try_finally. rewrite Hb.
  destruct (cleanup_returns env temp_dir keep w1) as [w2 ->]. reflexivity.
Qed.

(** ** The guarded conversion, case by case *)

Ltac unfold_worlds :=
  unfold bitmap_saved, ran, removed, removed_dir, written, made_dir, printed,
    effect in *;
  cbn [fs trace] in *.

Lemma tool_write_other args out o (files : gmap string entry) k :
  output_option args = Some o -> k <> o ->
  tool_write args out files !! k = files !! k.
Proof.
  intros Ho Hk. unfold tool_write. rewrite Ho.
  destruct out as [c|]; [|reflexivity].
  destruct (files !! o) as [[|c']|]; try reflexivity;
    now rewrite lookup_insert_ne.
Qed.

Lemma tool_write_dir args out (files : gmap string entry) k :
  files !! k = Some Dir -> tool_write args out files !! k = Some Dir.
Proof.
  intros Hk. unfold tool_write.
  destruct out as [c|], (output_option args) as [o|]; try assumption.
  destruct (decide (o = k)) as [->|Hne].
  - now rewrite Hk.
  - destruct (files !! o) as [[|c']|]; try assumption;
      now rewrite lookup_insert_ne.
Qed.

Lemma tool_write_file args out (files : gmap string entry) k :
  is_file (files !! k) = true -> is_file (tool_write args out files !! k) = true.
Proof.
  intros Hk. unfold tool_write.
  destruct out as [c|], (output_option args) as [o|]; try assumption.
  destruct (decide (o = k)) as [->|Hne].
  - destruct (files !! k) as [[|c']|]; try discriminate.
    now rewrite lookup_insert_eq.
  - destruct (files !! o) as [[|c']|]; try assumption;
      now rewrite lookup_insert_ne.
Qed.

(** Where the output path holds no directory, the bytes the tool leaves
    are there after the run. *)
Lemma tool_write_output args c o (files : gmap string entry) :
  output_option args = Some o -> files !! o <> Some Dir ->
  tool_write args (Some c) files !! o = Some (File c).
Proof.
  intros Ho Hd. unfold tool_write. rewrite Ho.
  destruct (files !! o) as [[|c']|]; try congruence;
    now rewrite lookup_insert_eq.
Qed.

Section Conversion.

Variable env : environment.
Variables input_file output_file temp_dir : string.
Variable w : world.
Hypothesis Htmp : next_temp_dir env (fs w) = Some temp_dir.

Local Abbreviation bmp_path := (bmp_path_of temp_dir).

Lemma input_not_scratch e :
  fs w !! input_file = Some e ->
  input_file <> temp_dir /\ input_file <> bmp_path.
Proof.
  destruct (next_temp_dir_fresh _ _ _ Htmp) as [Hd Hb].
  intros He. split; intros ->; congruence.
Qed.

Lemma lookup_input_made_dir e :
  fs w !! input_file = Some e ->
  fs (made_dir temp_dir w) !! input_file = Some e.
Proof.
  intros He. destruct (input_not_scratch _ He) as [Hd _]. unfold_worlds.
  now rewrite lookup_insert_ne by congruence.
Qed.

Lemma Image_open_decoded c img :
  fs w !! input_file = Some (File c) -> decode env c = Some img ->
  Image_open env input_file (made_dir temp_dir w)
  = (Return (Loadable img), made_dir temp_dir w).
Proof.
  intros He Hdec. unfold Image_open.
  now rewrite (lookup_input_made_dir _ He), Hdec.
Qed.

(** A readable header before corrupt data: the file opens. *)
Lemma Image_open_truncated c m msg :
  fs w !! input_file = Some (File c) ->
  decode env c = None -> header env c = Some (m, msg) ->
  Image_open env input_file (made_dir temp_dir w)
  = (Return (Truncated m msg), made_dir temp_dir w).
Proof.
  intros He Hdec Hh. unfold Image_open.
  now rewrite (lookup_input_made_dir _ He), Hdec, Hh.
Qed.

(** Step 1 fails, at [Image.open] or at the first load of the data: the
    error is printed and raised again, and no bitmap was written. *)
Lemma guarded_decode_failure e x :
  fs w !! input_file = Some e ->
  decode_failure env input_file e = Some x ->
  guarded_conversion env input_file output_file temp_dir (made_dir temp_dir w)
  = (Raise x, printed (Error_during_conversion x) (made_dir temp_dir w)).
Proof.
  intros He Hx. unfold guarded_conversion, try_except, conversion.
  destruct e as [|c]; cbn [decode_failure] in Hx.
  - injection Hx as <-. erewrite bind_raise; [reflexivity|].
    unfold Image_open. now rewrite (lookup_input_made_dir _ He).
  - destruct (decode env c) eqn:Hdec; [discriminate|].
    destruct (header env c) as [[m msg]|] eqn:Hh; injection Hx as <-.
    + erewrite bind_return by (eapply Image_open_truncated; eassumption).
      cbn [mode_of].
      destruct (negb (String.eqb m "L")); reflexivity.
    + erewrite bind_raise; [reflexivity|].
      unfold Image_open. now rewrite (lookup_input_made_dir _ He), Hdec, Hh.
Qed.

(** A decoded image reaches [img.save] as its grayscale version. *)
Lemma conversion_decoded c img :
  fs w !! input_file = Some (File c) -> decode env c = Some img ->
  conversion env input_file output_file temp_dir (made_dir temp_dir w)
  = (Image_save env (grayscale env img) bmp_path ;;;
     subprocess_run env (potrace_args output_file bmp_path) ;;;
     print (Successfully_converted input_file output_file) ;;;
     ret output_file) (made_dir temp_dir w).
Proof.
  intros He Hdec. unfold conversion.
  erewrite bind_return by (eapply Image_open_decoded; eassumption).
  cbn [mode_of]. unfold grayscale.
  destruct (negb (String.eqb (mode img) "L")); reflexivity.
Qed.

(** The bitmap cannot be written. *)
Lemma guarded_save_refused c img :
  fs w !! input_file = Some (File c) -> decode env c = Some img ->
  refused env (SysWrite bmp_path) = true ->
  guarded_conversion env input_file output_file temp_dir (made_dir temp_dir w)
  = (Raise (os_error env (SysWrite bmp_path)),
     printed (Error_during_conversion (os_error env (SysWrite bmp_path)))
       (made_dir temp_dir w)).
Proof.
  intros He Hdec Hw. unfold guarded_conversion, try_except.
  rewrite (conversion_decoded _ _ He Hdec).
  erewrite bind_raise; [reflexivity|].
  unfold Image_save. now rewrite Hw.
Qed.

Lemma Image_save_made_dir img :
  refused env (SysWrite bmp_path) = false ->
  Image_save env (grayscale env img) bmp_path (made_dir temp_dir w)
  = (Return tt, bitmap_saved env img temp_dir w).
Proof.
  intros Hw. destruct (next_temp_dir_fresh _ _ _ Htmp) as [Hd Hb].
  apply Image_save_fresh; [assumption|]. unfold_worlds.
  rewrite lookup_insert_ne; [assumption|]. intros H. now apply (bmp_path_ne temp_dir).
Qed.

(** No [potrace] on PATH. *)
Lemma guarded_tool_missing c img :
  fs w !! input_file = Some (File c) -> decode env c = Some img ->
  refused env (SysWrite bmp_path) = false ->
  which env "potrace" = None ->
  let e := FileNotFoundError "[Errno 2] No such file or directory: 'potrace'" in
  guarded_conversion env input_file output_file temp_dir (made_dir temp_dir w)
  = (Raise e, printed (Error_during_conversion e) (bitmap_saved env img temp_dir w)).
Proof.
  intros He Hdec Hw Hwhich e.
  unfold guarded_conversion, try_except.
  rewrite (conversion_decoded _ _ He Hdec).
  erewrite bind_return by (now apply Image_save_made_dir).
  erewrite bind_raise; [reflexivity|].
  unfold subprocess_run, potrace_args. now rewrite Hwhich.
Qed.

(** [potrace] ran. *)
Lemma guarded_tool_ran c img run returncode out :
  fs w !! input_file = Some (File c) -> decode env c = Some img ->
  refused env (SysWrite bmp_path) = false ->
  which env "potrace" = Some run ->
  run (potrace_args output_file bmp_path) (fs (bitmap_saved env img temp_dir w))
  = (returncode, out) ->
  let w1 := ran (potrace_args output_file bmp_path) returncode out
              (bitmap_saved env img temp_dir w) in
  guarded_conversion env input_file output_file temp_dir (made_dir temp_dir w)
  = if returncode =? 0
    then (Return output_file,
          printed (Successfully_converted input_file output_file) w1)
    else
      let e := CalledProcessError returncode (potrace_args output_file bmp_path) in
      (Raise e, printed (Error_during_conversion e) w1).
Proof.
  intros He Hdec Hw Hwhich Hrun w1.
  unfold guarded_conversion, try_except.
  rewrite (conversion_decoded _ _ He Hdec).
  erewrite bind_return by (now apply Image_save_made_dir).
  unfold bind at 1, subprocess_run, potrace_args at 1.
  rewrite Hwhich. fold (potrace_args output_file bmp_path). rewrite Hrun.
  fold w1. destruct (returncode =? 0); reflexivity.
Qed.

Lemma guarded_conversion_post r w1 :
  is_Some (fs w !! input_file) ->
  guarded_conversion env input_file output_file temp_dir (made_dir temp_dir w)
  = (r, w1) ->
  conversion_post env input_file output_file temp_dir w w1.
Proof.
  intros [e He]. destruct (next_temp_dir_fresh _ _ _ Htmp) as [Hd Hb].
  pose proof (bmp_path_ne temp_dir) as Hne.
  unfold conversion_post, staged. rewrite He.
  assert (Hfail : forall x, decode_failure env input_file e = Some x ->
            staged env input_file temp_dir (fs w) = None).
  { intros x Hx. unfold staged. rewrite He. destruct e as [|c]; [reflexivity|].
    cbn [decode_failure] in Hx. now destruct (decode env c). }
  destruct (decode_failure env input_file e) as [x|] eqn:Hx.
  - rewrite (guarded_decode_failure _ _ He Hx). intros [= <- <-].
    specialize (Hfail _ eq_refl). unfold staged in Hfail. rewrite He in Hfail.
    rewrite Hfail. unfold_worlds. repeat split.
    + apply lookup_insert_eq.
    + now rewrite lookup_insert_ne.
    + intros k ? ? ?. now rewrite lookup_insert_ne.
  - clear Hfail. destruct e as [|c]; [discriminate|]. cbn [decode_failure] in Hx.
    destruct (decode env c) as [img|] eqn:Hdec;
      [clear Hx|destruct (header env c) as [[m msg]|]; discriminate].
    destruct (refused env (SysWrite bmp_path)) eqn:Hw.
    + rewrite (guarded_save_refused _ _ He Hdec Hw). intros [= <- <-].
      unfold_worlds. repeat split.
      * apply lookup_insert_eq.
      * now rewrite lookup_insert_ne.
      * intros k ? ? ?. now rewrite lookup_insert_ne.
    + destruct (which env "potrace") as [run|] eqn:Hwhich.
      * destruct (run (potrace_args output_file bmp_path)
                    (fs (bitmap_saved env img temp_dir w)))
          as [returncode out] eqn:Hrun.
        rewrite (guarded_tool_ran _ _ _ _ _ He Hdec Hw Hwhich Hrun).
        intros Hr.
        assert (Hw1 : fs w1 = tool_write (potrace_args output_file bmp_path) out
                        (fs (bitmap_saved env img temp_dir w))).
        { destruct (returncode =? 0); now injection Hr as <- <-. }
        rewrite Hw1. clear Hr Hw1. unfold_worlds. repeat split.
        -- apply tool_write_dir.
           rewrite lookup_insert_ne by assumption. apply lookup_insert_eq.
        -- apply tool_write_file. now rewrite lookup_insert_eq.
        -- intros Ho.
           rewrite (tool_write_other _ _ output_file)
             by (reflexivity || congruence).
           apply lookup_insert_eq.
        -- intros k ? ? ?.
           rewrite (tool_write_other _ _ output_file)
             by (reflexivity || congruence).
           now rewrite !lookup_insert_ne.
      * rewrite (guarded_tool_missing _ _ He Hdec Hw Hwhich). intros [= <- <-].
        unfold_worlds. repeat split.
        -- rewrite lookup_insert_ne by assumption. apply lookup_insert_eq.
        -- now rewrite lookup_insert_eq.
        -- intros _. apply lookup_insert_eq.
        -- intros k ? ? ?. now rewrite !lookup_insert_ne.
Qed.

(** A conversion that returns, returns its output file. *)
Lemma guarded_conversion_return p w1 :
  guarded_conversion env input_file output_file temp_dir (made_dir temp_dir w)
  = (Return p, w1) ->
  p = output_file.
Proof.
  unfold guarded_conversion, try_except, conversion, bind, print, ret, raise.
  repeat match goal with
         | |- context [match ?m ?x with _ => _ end] =>
             destruct (m x) as [[?|?] ?]
         end; congruence.
Qed.

End Conversion.

(** ** The clean-up *)

Lemma remove_temporary_files_allowed env temp_dir w1 :
  removal_allowed env temp_dir ->
  fs w1 !! temp_dir = Some Dir ->
  fs w1 !! bmp_path_of temp_dir = None
  \/ is_file (fs w1 !! bmp_path_of temp_dir) = true ->
  exists w2,
    remove_temporary_files env temp_dir w1 = (Return tt, w2)
    /\ scratch_gone temp_dir w2
    /\ forall k, k <> temp_dir -> k <> bmp_path_of temp_dir ->
       fs w2 !! k = fs w1 !! k.
Proof.
  intros [Hrm Hrd] Hd Hb. pose proof (bmp_path_ne temp_dir) as Hne.
  unfold remove_temporary_files, scratch_gone, bind, os_path_exists.
  fold (bmp_path_of temp_dir).
  destruct (fs w1 !! bmp_path_of temp_dir) as [[|c]|] eqn:Hbmp;
    [destruct Hb; discriminate| |].
  - unfold os_remove. rewrite Hrm, Hbmp.
    unfold os_rmdir. rewrite Hrd. unfold_worlds.
    rewrite lookup_delete_ne by assumption. rewrite Hd.
    eexists. split; [reflexivity|]. cbn [fs]. repeat split.
    + rewrite lookup_delete_ne by congruence. apply lookup_delete_eq.
    + apply lookup_delete_eq.
    + intros k ? ?. now rewrite !lookup_delete_ne by congruence.
  - unfold ret, os_rmdir. rewrite Hrd, Hd. unfold_worlds.
    eexists. split; [reflexivity|]. cbn [fs]. repeat split.
    + now rewrite lookup_delete_ne by congruence.
    + apply lookup_delete_eq.
    + intros k ? ?. now rewrite lookup_delete_ne by congruence.
Qed.

Lemma os_remove_frame env p w r w' k :
  os_remove env p w = (r, w') -> k <> p -> fs w' !! k = fs w !! k.
Proof.
  unfold os_remove. intros H Hk.
  destruct (refused env (SysRemove p)); [now injection H as _ <-|].
  destruct (fs w !! p) as [[|c]|]; injection H as _ <-; try reflexivity.
  unfold_worlds. now rewrite lookup_delete_ne.
Qed.

Lemma os_rmdir_frame env d w r w' k :
  os_rmdir env d w = (r, w') -> k <> d -> fs w' !! k = fs w !! k.
Proof.
  unfold os_rmdir. intros H Hk.
  destruct (refused env (SysRmdir d)); [now injection H as _ <-|].
  destruct (fs w !! d) as [[|c]|]; injection H as _ <-; try reflexivity.
  unfold_worlds. now rewrite lookup_delete_ne.
Qed.

Lemma remove_temporary_files_frame env temp_dir w r w' k :
  remove_temporary_files env temp_dir w = (r, w') ->
  k <> temp_dir -> k <> bmp_path_of temp_dir ->
  fs w' !! k = fs w !! k.
Proof.
  unfold remove_temporary_files, bind at 1, os_path_exists.
  fold (bmp_path_of temp_dir). intros H Hd Hb.
  unfold bind in H.
  destruct (fs w !! bmp_path_of temp_dir) as [e|].
  - destruct (os_remove env (bmp_path_of temp_dir) w) as [[[]|x] w1] eqn:Hrm.
    + rewrite (os_rmdir_frame _ _ _ _ _ _ H Hd).
      now apply (os_remove_frame _ _ _ _ _ _ Hrm).
    + injection H as _ <-. now apply (os_remove_frame _ _ _ _ _ _ Hrm).
  - unfold ret in H. now apply (os_rmdir_frame _ _ _ _ _ _ H).
Qed.

(** Every path but the two of the scratch workspace is left alone by the
    clean-up, whether it succeeds or not. *)
Lemma cleanup_frame env temp_dir keep w1 k :
  k <> temp_dir -> k <> bmp_path_of temp_dir ->
  fs (snd (cleanup env temp_dir keep w1)) !! k = fs w1 !! k.
Proof.
  intros Hd Hb. unfold cleanup. destruct keep; cbn [negb]; [reflexivity|].
  unfold try_except.
  destruct (remove_temporary_files env temp_dir w1) as [[[]|x] w2] eqn:Hr;
    cbn [snd]; unfold print; unfold_worlds;
    now apply (remove_temporary_files_frame _ _ _ _ _ _ Hr).
Qed.

(** The call, split into the guarded conversion and the clean-up. *)
Lemma png_to_svg_split env input_file output_file keep w temp_dir :
  is_Some (fs w !! input_file) ->
  next_temp_dir env (fs w) = Some temp_dir ->
  exists r w1,
    guarded_conversion env input_file (default_output input_file output_file)
      temp_dir (made_dir temp_dir w) = (r, w1)
    /\ png_to_svg env input_file output_file keep w
       = (r, snd (cleanup env temp_dir keep w1)).
Proof.
  intros Hin Htmp.
  destruct (guarded_conversion env input_file
              (default_output input_file output_file) temp_dir
              (made_dir temp_dir w)) as [r w1] eqn:Hg.
  exists r, w1. split; [reflexivity|].
  rewrite (png_to_svg_reached _ _ _ _ _ _ Hin Htmp).
  now apply try_finally_cleanup.
Qed.

(** ** What the clean-up adds to the trace *)

Lemma runs_app t1 t2 : runs (t1 ++ t2) = runs t1 ++ runs t2.
Proof.
  induction t1 as [|e t1 IH]; [reflexivity|].
  destruct e; cbn [runs app]; now rewrite ?IH.
Qed.

Lemma without_run_runs w w' :
  continues_without_run w w' -> runs (trace w') = runs (trace w).
Proof. intros (rest & -> & H). now rewrite runs_app, H, app_nil_r. Qed.

Lemma without_run_refl w : continues_without_run w w.
Proof. exists []. now rewrite app_nil_r. Qed.

Lemma without_run_trans w1 w2 w3 :
  continues_without_run w1 w2 -> continues_without_run w2 w3 ->
  continues_without_run w1 w3.
Proof.
  intros (r1 & H1 & Q1) (r2 & H2 & Q2). exists (r1 ++ r2).
  now rewrite H2, H1, app_assoc, runs_app, Q1, Q2.
Qed.

Lemma os_remove_without_run env p w r w' :
  os_remove env p w = (r, w') -> continues_without_run w w'.
Proof.
  unfold os_remove. intros H.
  destruct (refused env (SysRemove p));
    [injection H as _ <-; apply without_run_refl|].
  destruct (fs w !! p) as [[|c]|]; injection H as _ <-;
    try apply without_run_refl.
  now exists [Removed p].
Qed.

Lemma os_rmdir_without_run env d w r w' :
  os_rmdir env d w = (r, w') -> continues_without_run w w'.
Proof.
  unfold os_rmdir. intros H.
  destruct (refused env (SysRmdir d));
    [injection H as _ <-; apply without_run_refl|].
  destruct (fs w !! d) as [[|c]|]; injection H as _ <-;
    try apply without_run_refl.
  now exists [RemovedDir d].
Qed.

Lemma remove_temporary_files_without_run env temp_dir w r w' :
  remove_temporary_files env temp_dir w = (r, w') -> continues_without_run w w'.
Proof.
  unfold remove_temporary_files, bind at 1, os_path_exists. intros H.
  unfold bind in H.
  destruct (fs w !! Path.join temp_dir "temp.bmp") as [e|].
  - destruct (os_remove env (Path.join temp_dir "temp.bmp") w)
      as [[[]|x] w1] eqn:Hrm.
    + eapply without_run_trans;
        [eapply os_remove_without_run|eapply os_rmdir_without_run];
        eassumption.
    + injection H as _ <-. eapply os_remove_without_run; eassumption.
  - unfold ret in H. eapply os_rmdir_without_run; eassumption.
Qed.

Lemma cleanup_without_run env temp_dir keep w :
  continues_without_run w (snd (cleanup env temp_dir keep w)).
Proof.
  unfold cleanup. destruct keep; cbn [negb]; [apply without_run_refl|].
  unfold try_except.
  destruct (remove_temporary_files env temp_dir w) as [[[]|x] w2] eqn:Hr;
    cbn [snd].
  - eapply remove_temporary_files_without_run; eassumption.
  - eapply without_run_trans;
      [eapply remove_temporary_files_without_run; eassumption|].
    now exists [Printed (Warning_could_not_clean_up x)].
Qed.

(** ** The claims *)

(** C4: when the input path names no entry of the file system, the call
    raises the FileNotFoundError of line 65 and the world it leaves is the
    world it found: no directory was made and nothing was recorded, since
    the test of existence comes before [tempfile.mkdtemp]. *)
Theorem missing_input_raises_before_scratch
    env input_file output_file keep w :
  fs w !! input_file = None ->
  png_to_svg env input_file output_file keep w
  = (Raise (FileNotFoundError ("Input file not found: " +:+ input_file)), w).
Proof.
  intros Hmissing. unfold png_to_svg.
  assert (Hexists : os_path_exists input_file w = (Return false, w))
    by (unfold os_path_exists; now rewrite Hmissing).
  rewrite (bind_return _ _ _ _ _ Hexists). reflexivity.
Qed.

Lemma missing_input_witness :
  fs sample_world !! "nothing.png" = None
  /\ png_to_svg (sample_env allow_all (Some potrace_ok)) "nothing.png" None
       false sample_world
     = (Raise (FileNotFoundError "Input file not found: nothing.png"),
        sample_world).
Proof.
  split; [reflexivity|].
  apply (missing_input_raises_before_scratch
           (sample_env allow_all (Some potrace_ok)) "nothing.png" None false
           sample_world).
  reflexivity.
Defined.

(** A call returns only what its guarded conversion returns. *)
Lemma png_to_svg_return env input_file output_file keep w p w' :
  png_to_svg env input_file output_file keep w = (Return p, w') ->
  p = default_output input_file output_file.
Proof.
  intros H.
  destruct (fs w !! input_file) as [e|] eqn:He.
  - destruct (next_temp_dir env (fs w)) as [d|] eqn:Htmp.
    + destruct (png_to_svg_split env input_file output_file keep w d)
        as (r & w1 & Hg & Hp); [now exists e|assumption|].
      rewrite Hp in H. injection H as -> _.
      eapply guarded_conversion_return; eassumption.
    + rewrite png_to_svg_no_temp_dir in H by (eauto || assumption).
      discriminate.
  - rewrite png_to_svg_missing_input in H by assumption.
    discriminate.
Qed.

(** C1: a call that succeeds returns the output path the caller supplied
    when there is one; otherwise it returns the root [os.path.splitext]
    gives for the input path followed by [.svg], so that an input
    [dir/name.ext] yields [dir/name.svg] ([photo.png] yields [photo.svg]). *)
Theorem returned_path_is_resolved_output
    env input_file output_file keep w p w' :
  png_to_svg env input_file output_file keep w = (Return p, w') ->
  (forall o, output_file = Some o -> p = o)
  /\ (output_file = None ->
      p = fst (Path.splitext input_file) +:+ ".svg"
      /\ forall dir name ext,
           input_file = dir +:+ name +:+ "." +:+ ext ->
           dir_part dir -> plain_name name -> plain_ext ext ->
           p = dir +:+ name +:+ ".svg").
Proof.
  intros H%png_to_svg_return. subst p. split.
  - now intros o ->.
  - intros ->. cbn [default_output]. split; [reflexivity|].
    intros dir name ext -> Hdir Hname Hext.
    rewrite splitext_name_ext by assumption. cbn [fst].
    apply append_assoc.
Qed.

Lemma returned_path_witness :
  png_to_svg (sample_env allow_all (Some potrace_ok)) "photo.png" None false
    sample_world
  = (Return "photo.svg",
     snd (png_to_svg (sample_env allow_all (Some potrace_ok)) "photo.png" None
            false sample_world))
  /\ "photo.svg" = "" +:+ "photo" +:+ ".svg".
Proof.
  assert (H : png_to_svg (sample_env allow_all (Some potrace_ok)) "photo.png"
                None false sample_world
              = (Return "photo.svg",
                 snd (png_to_svg (sample_env allow_all (Some potrace_ok))
                        "photo.png" None false sample_world))).
  { vm_compute. reflexivity. }
  split; [exact H|].
  destruct (returned_path_is_resolved_output _ _ _ _ _ _ _ H) as [_ Hnone].
  destruct (Hnone eq_refl) as [_ Hext].
  apply (Hext "" "photo" "png").
  - reflexivity.
  - now left.
  - split; reflexivity.
  - split; reflexivity.
Defined.

(** ** The scratch workspace after the call *)

(** Without retention, and when the operating system does not refuse the
    removals, neither the bitmap nor the directory outlives the call. *)
Lemma png_to_svg_scratch_gone env input_file output_file w temp_dir :
  is_Some (fs w !! input_file) ->
  next_temp_dir env (fs w) = Some temp_dir ->
  removal_allowed env temp_dir ->
  scratch_gone temp_dir (snd (png_to_svg env input_file output_file false w)).
Proof.
  intros Hin Htmp Hok.
  destruct (png_to_svg_split env input_file output_file false w temp_dir Hin Htmp)
    as (r & w1 & Hg & ->). cbn [snd].
  destruct (guarded_conversion_post _ _ _ _ _ Htmp _ _ Hin Hg) as (Hd & Hb & _).
  destruct (remove_temporary_files_allowed env temp_dir w1 Hok Hd)
    as (w2 & Hrm & Hgone & _).
  - destruct (staged env input_file temp_dir (fs w)); [right|left]; tauto.
  - now rewrite (cleanup_done _ _ _ _ Hrm).
Qed.

(** With retention the call leaves the world of its guarded conversion. *)
Lemma png_to_svg_kept env input_file output_file w temp_dir :
  is_Some (fs w !! input_file) ->
  next_temp_dir env (fs w) = Some temp_dir ->
  conversion_post env input_file (default_output input_file output_file)
    temp_dir w (snd (png_to_svg env input_file output_file true w)).
Proof.
  intros Hin Htmp.
  destruct (png_to_svg_split env input_file output_file true w temp_dir Hin Htmp)
    as (r & w1 & Hg & ->). cbn [snd cleanup negb ret].
  exact (guarded_conversion_post _ _ _ _ _ Htmp _ _ Hin Hg).
Qed.

(** What existed before the call and is not its output file is unchanged. *)
Lemma png_to_svg_frame env input_file output_file keep w k :
  is_Some (fs w !! k) ->
  k <> default_output input_file output_file ->
  fs (snd (png_to_svg env input_file output_file keep w)) !! k = fs w !! k.
Proof.
  intros [e Hk] Hout.
  destruct (fs w !! input_file) as [e'|] eqn:Hin.
  - destruct (next_temp_dir env (fs w)) as [d|] eqn:Htmp.
    + destruct (png_to_svg_split env input_file output_file keep w d)
        as (r & w1 & Hg & ->); [now exists e'|assumption|]. cbn [snd].
      destruct (input_not_scratch env k d w Htmp _ Hk) as [Hd Hb].
      rewrite cleanup_frame by assumption.
      destruct (guarded_conversion_post _ _ _ _ _ Htmp _ _
                  (ex_intro _ e' Hin) Hg) as (_ & _ & Hframe).
      now apply Hframe.
    + now rewrite png_to_svg_no_temp_dir by (eauto || assumption).
  - now rewrite png_to_svg_missing_input by assumption.
Qed.


Lemma decode_failure_kinds env p c x :
  decode_failure env p (File c) = Some x ->
  x = UnidentifiedImageError p \/ exists msg, x = OSError msg.
Proof.
  cbn [decode_failure]. destruct (decode env c); [discriminate|].
  destruct (header env c) as [[m msg]|]; intros [= <-]; eauto.
Qed.

(** The call when step 1 fails to read an image. *)
Lemma png_to_svg_decode_failure env input_file output_file keep w e x temp_dir :
  fs w !! input_file = Some e ->
  decode_failure env input_file e = Some x ->
  next_temp_dir env (fs w) = Some temp_dir ->
  png_to_svg env input_file output_file keep w
  = (Raise x,
     snd (cleanup env temp_dir keep
            (printed (Error_during_conversion x) (made_dir temp_dir w)))).
Proof.
  intros He Hx Htmp.
  rewrite (png_to_svg_reached _ _ _ _ _ _ (ex_intro _ e He) Htmp).
  apply try_finally_cleanup. eapply guarded_decode_failure; eassumption.
Qed.

(** The clean-up of a directory in which no bitmap was written: [os.remove]
    is skipped, [os.rmdir] removes the directory or is refused. *)
Lemma cleanup_empty_directory env temp_dir w m :
  next_temp_dir env (fs w) = Some temp_dir ->
  snd (cleanup env temp_dir false (printed m (made_dir temp_dir w)))
  = if refused env (SysRmdir temp_dir)
    then printed (Warning_could_not_clean_up (os_error env (SysRmdir temp_dir)))
           (printed m (made_dir temp_dir w))
    else removed_dir temp_dir (printed m (made_dir temp_dir w)).
Proof.
  intros Htmp. destruct (next_temp_dir_fresh _ _ _ Htmp) as [Hd Hb].
  pose proof (bmp_path_ne temp_dir) as Hne.
  unfold cleanup, try_except, remove_temporary_files, bind, os_path_exists.
  cbn [negb]. fold (bmp_path_of temp_dir).
  assert (Hbmp : fs (printed m (made_dir temp_dir w)) !! bmp_path_of temp_dir
                 = None)
    by (unfold_worlds; now rewrite lookup_insert_ne by congruence).
  rewrite Hbmp. unfold ret, os_rmdir.
  destruct (refused env (SysRmdir temp_dir)); [reflexivity|].
  assert (Hdir : fs (printed m (made_dir temp_dir w)) !! temp_dir = Some Dir)
    by (unfold_worlds; apply lookup_insert_eq).
  now rewrite Hdir.
Qed.

Lemma removed_empty_directory temp_dir w m :
  fs w !! temp_dir = None ->
  fs (removed_dir temp_dir (printed m (made_dir temp_dir w))) = fs w
  /\ trace (removed_dir temp_dir (printed m (made_dir temp_dir w)))
     = trace w ++ [MadeDir temp_dir; Printed m; RemovedDir temp_dir].
Proof.
  intros Hd. unfold_worlds. split.
  - now apply delete_insert_id.
  - now rewrite <- !app_assoc.
Qed.



(** C8, as the code has it: an existing file from which no image can be
    decoded makes the call raise Pillow's error, UnidentifiedImageError at
    [Image.open] for a file it does not identify, the OSError of the first
    load ([img.convert], or [img.save] for mode L) for a readable header
    before corrupt data.  No bitmap was written; the world the call leaves
    is the one the clean-up of the [finally] block makes of the world of
    the failure.  Without retention, and unless the operating system
    refuses the removal, the directory made for the call is removed before
    the error leaves it: the file system is back to what it was, and the
    trace reads directory made, error printed, directory removed. *)
Theorem undecodable_input_raises_and_cleans_up
    env input_file output_file keep w c temp_dir :
  fs w !! input_file = Some (File c) ->
  decode env c = None ->
  next_temp_dir env (fs w) = Some temp_dir ->
  exists x,
    decode_failure env input_file (File c) = Some x
    /\ (x = UnidentifiedImageError input_file \/ exists msg, x = OSError msg)
    /\ png_to_svg env input_file output_file keep w
       = (Raise x,
          snd (cleanup env temp_dir keep
                 (printed (Error_during_conversion x) (made_dir temp_dir w))))
    /\ (keep = false -> refused env (SysRmdir temp_dir) = false ->
        scratch_gone temp_dir
          (snd (png_to_svg env input_file output_file keep w))
        /\ fs (snd (png_to_svg env input_file output_file keep w)) = fs w
        /\ trace (snd (png_to_svg env input_file output_file keep w))
           = trace w
             ++ [MadeDir temp_dir; Printed (Error_during_conversion x);
                 RemovedDir temp_dir]).
Proof.
  intros He Hdec Htmp.
  destruct (decode_failure env input_file (File c)) as [x|] eqn:Hx;
    [|cbn [decode_failure] in Hx; rewrite Hdec in Hx;
      destruct (header env c) as [[m msg]|]; discriminate].
  exists x. split; [reflexivity|].
  split; [now apply (decode_failure_kinds env input_file c)|].
  rewrite (png_to_svg_decode_failure _ _ _ _ _ _ _ _ He Hx Htmp).
  cbn [snd]. split; [reflexivity|]. intros -> Hrd.
  destruct (next_temp_dir_fresh _ _ _ Htmp) as [Hd Hb].
  rewrite (cleanup_empty_directory _ _ _ _ Htmp), Hrd.
  destruct (removed_empty_directory temp_dir w (Error_during_conversion x) Hd)
    as [Hfs Htr].
  unfold scratch_gone. rewrite Hfs. repeat split; assumption.
Qed.

Lemma undecodable_input_witness :
  fs truncated_world !! "cut.png" = Some (File [3; 200; 100])
  /\ decode (sample_env allow_all (Some potrace_ok)) [3; 200; 100] = None
  /\ fst (png_to_svg (sample_env allow_all (Some potrace_ok)) "cut.png" None
            false truncated_world)
     = Raise (OSError "image file is truncated")
  /\ fs (snd (png_to_svg (sample_env allow_all (Some potrace_ok)) "cut.png"
                None false truncated_world))
     = fs truncated_world.
Proof.
  split; [reflexivity|]. split; [reflexivity|].
  destruct (undecodable_input_raises_and_cleans_up
              (sample_env allow_all (Some potrace_ok)) "cut.png" None false
              truncated_world [3; 200; 100] "/tmp/tmpa1b2c3"
              eq_refl eq_refl eq_refl)
    as (x & Hx & _ & Hr & Hc).
  injection Hx as <-.
  split; [now rewrite Hr|]. now destruct (Hc eq_refl eq_refl) as (_ & Hfs & _).
Defined.

(** C8 as stated fails where the operating system refuses the removal: the
    call raises the decoding error, and the directory it made is still
    there. *)
Lemma undecodable_input_directory_left :
  fs sample_world !! "bad.png" = Some (File [9; 9])
  /\ decode (sample_env refuse_rmdir (Some potrace_ok)) [9; 9] = None
  /\ fst (png_to_svg (sample_env refuse_rmdir (Some potrace_ok)) "bad.png"
            None false sample_world)
     = Raise (UnidentifiedImageError "bad.png")
  /\ fs (snd (png_to_svg (sample_env refuse_rmdir (Some potrace_ok)) "bad.png"
                None false sample_world)) !! "/tmp/tmpa1b2c3"
     = Some Dir
  /\ ~ scratch_gone "/tmp/tmpa1b2c3"
         (snd (png_to_svg (sample_env refuse_rmdir (Some potrace_ok))
                 "bad.png" None false sample_world)).
Proof.
  split; [reflexivity|]. split; [reflexivity|].
  split; [vm_compute; reflexivity|]. split; [vm_compute; reflexivity|].
  intros [_ H]. vm_compute in H. discriminate.
Qed.

(** ** Calls that get as far as the bitmap *)

Section Staged.

Variable env : environment.
Variable input_file : string.
Variable output_file : option string.
Variable keep : bool.
Variable w : world.
Variable c : list Z.
Variable img : image.
Variable temp_dir : string.
Hypothesis Hin : fs w !! input_file = Some (File c).
Hypothesis Hdec : decode env c = Some img.
Hypothesis Htmp : next_temp_dir env (fs w) = Some temp_dir.
Hypothesis Hwr : refused env (SysWrite (bmp_path_of temp_dir)) = false.

Local Abbreviation bmp_path := (bmp_path_of temp_dir).
Local Abbreviation output := (default_output input_file output_file).
Local Abbreviation args := (potrace_args output bmp_path).

Lemma staged_bitmap :
  staged env input_file temp_dir (fs w)
  = Some (encode_bmp env (grayscale env img)).
Proof. unfold staged. now rewrite Hin, Hdec, Hwr. Qed.

Lemma png_to_svg_tool_missing :
  which env "potrace" = None ->
  let e := FileNotFoundError "[Errno 2] No such file or directory: 'potrace'" in
  png_to_svg env input_file output_file keep w
  = (Raise e,
     snd (cleanup env temp_dir keep
            (printed (Error_during_conversion e)
               (bitmap_saved env img temp_dir w)))).
Proof.
  intros Hwhich e.
  rewrite (png_to_svg_reached _ _ _ _ _ _ (ex_intro _ _ Hin) Htmp).
  apply try_finally_cleanup. now apply (guarded_tool_missing _ _ _ _ _ Htmp c).
Qed.

Lemma png_to_svg_tool_failed run returncode out :
  which env "potrace" = Some run ->
  run args (fs (bitmap_saved env img temp_dir w)) = (returncode, out) ->
  returncode <> 0 ->
  let e := CalledProcessError returncode args in
  png_to_svg env input_file output_file keep w
  = (Raise e,
     snd (cleanup env temp_dir keep
            (printed (Error_during_conversion e)
               (ran args returncode out (bitmap_saved env img temp_dir w))))).
Proof.
  intros Hwhich Hrun Hrc e.
  rewrite (png_to_svg_reached _ _ _ _ _ _ (ex_intro _ _ Hin) Htmp).
  apply try_finally_cleanup.
  rewrite (guarded_tool_ran _ _ _ _ _ Htmp c img run returncode out)
    by assumption.
  apply Z.eqb_neq in Hrc. now rewrite Hrc.
Qed.

Lemma png_to_svg_tool_succeeded run out :
  which env "potrace" = Some run ->
  run args (fs (bitmap_saved env img temp_dir w)) = (0, out) ->
  png_to_svg env input_file output_file keep w
  = (Return output,
     snd (cleanup env temp_dir keep
            (printed (Successfully_converted input_file output)
               (ran args 0 out (bitmap_saved env img temp_dir w))))).
Proof.
  intros Hwhich Hrun.
  rewrite (png_to_svg_reached _ _ _ _ _ _ (ex_intro _ _ Hin) Htmp).
  apply try_finally_cleanup.
  now rewrite (guarded_tool_ran _ _ _ _ _ Htmp c img run 0 out) by assumption.
Qed.

(** Whatever the tool does, the trace of the call starts with the directory
    and the bitmap. *)
Lemma png_to_svg_trace_staged :
  exists rest,
    trace (snd (png_to_svg env input_file output_file keep w))
    = trace w
      ++ MadeDir temp_dir
         :: Saved bmp_path (encode_bmp env (grayscale env img)) :: rest.
Proof.
  assert (Hgo : forall r w1,
            png_to_svg env input_file output_file keep w
            = (r, snd (cleanup env temp_dir keep w1)) ->
            continues (bitmap_saved env img temp_dir w) w1 ->
            exists rest,
              trace (snd (png_to_svg env input_file output_file keep w))
              = trace w
                ++ MadeDir temp_dir
                   :: Saved bmp_path (encode_bmp env (grayscale env img))
                   :: rest).
  { intros r w1 -> [r1 H1]. cbn [snd].
    destruct (cleanup_without_run env temp_dir keep w1) as (r2 & -> & _).
    exists (r1 ++ r2). rewrite H1. unfold_worlds.
    now rewrite <- !app_assoc. }
  destruct (which env "potrace") as [run|] eqn:Hwhich.
  - destruct (run args (fs (bitmap_saved env img temp_dir w)))
      as [returncode out] eqn:Hrun.
    destruct (Z.eq_dec returncode 0) as [->|Hrc].
    + eapply Hgo; [now apply (png_to_svg_tool_succeeded run out)|].
      eexists [_; _]. unfold_worlds. now rewrite <- !app_assoc.
    + eapply Hgo; [now apply (png_to_svg_tool_failed run returncode out)|].
      eexists [_; _]. unfold_worlds. now rewrite <- !app_assoc.
  - eapply Hgo; [now apply png_to_svg_tool_missing|].
    eexists [_]. unfold_worlds. reflexivity.
Qed.

End Staged.

Lemma grayscale_mode env img : mode (grayscale env img) = "L".
Proof.
  unfold grayscale. destruct (String.eqb_spec (mode img) "L") as [H|H];
    cbn [negb]; [exact H|reflexivity].
Qed.

Lemma grayscale_id env img : mode img = "L" -> grayscale env img = img.
Proof. unfold grayscale. intros ->. reflexivity. Qed.

Lemma grayscale_convert env img :
  mode img <> "L" -> grayscale env img = Image_convert env img "L".
Proof.
  unfold grayscale. intros H%String.eqb_neq. now rewrite H.
Qed.

(** C2: for an input the decoder accepts, the bitmap saved in the scratch
    directory is the BMP encoding of a mode-L image: the decoded image
    itself when its mode is already L (so the same pixels), and its
    conversion to L otherwise.  The save is the first effect after the
    directory is made, and with retention the file is still there (unless
    the caller named it as the output file). *)
Theorem persisted_bitmap_is_grayscale
    env input_file output_file keep w c img temp_dir :
  fs w !! input_file = Some (File c) ->
  decode env c = Some img ->
  next_temp_dir env (fs w) = Some temp_dir ->
  refused env (SysWrite (bmp_path_of temp_dir)) = false ->
  mode (grayscale env img) = "L"
  /\ (mode img = "L" -> grayscale env img = img)
  /\ (mode img <> "L" -> grayscale env img = Image_convert env img "L")
  /\ (exists rest,
        trace (snd (png_to_svg env input_file output_file keep w))
        = trace w
          ++ MadeDir temp_dir
             :: Saved (bmp_path_of temp_dir)
                  (encode_bmp env (grayscale env img)) :: rest)
  /\ (keep = true ->
      default_output input_file output_file <> bmp_path_of temp_dir ->
      fs (snd (png_to_svg env input_file output_file keep w))
        !! bmp_path_of temp_dir
      = Some (File (encode_bmp env (grayscale env img)))).
Proof.
  intros Hin Hdec Htmp Hwr. repeat split.
  - apply grayscale_mode.
  - apply grayscale_id.
  - apply grayscale_convert.
  - eapply png_to_svg_trace_staged; eassumption.
  - intros -> Hout.
    destruct (png_to_svg_kept env input_file output_file w temp_dir
                (ex_intro _ _ Hin) Htmp) as (_ & Hb & _).
    rewrite (staged_bitmap _ _ _ _ _ _ Hin Hdec Hwr) in Hb.
    now apply Hb.
Qed.

Lemma persisted_bitmap_witness :
  fs sample_world !! "photo.png" = Some (File [1; 200; 100; 50])
  /\ decode (sample_env allow_all (Some potrace_ok)) [1; 200; 100; 50]
     = Some (Image "RGB" (1, 1) [200; 100; 50])
  /\ fs (snd (png_to_svg (sample_env allow_all (Some potrace_ok)) "photo.png"
                None true sample_world)) !! "/tmp/tmpa1b2c3/temp.bmp"
     = Some (File [66; 77; 124]).
Proof.
  split; [reflexivity|]. split; [reflexivity|].
  destruct (persisted_bitmap_is_grayscale
              (sample_env allow_all (Some potrace_ok)) "photo.png" None true
              sample_world [1; 200; 100; 50]
              (Image "RGB" (1, 1) [200; 100; 50]) "/tmp/tmpa1b2c3"
              eq_refl eq_refl eq_refl eq_refl)
    as (_ & _ & _ & _ & H).
  apply H; [reflexivity|discriminate].
Defined.

Lemma runs_bitmap_saved env img temp_dir w :
  runs (trace (bitmap_saved env img temp_dir w)) = runs (trace w).
Proof. unfold_worlds. now rewrite !runs_app, !app_nil_r. Qed.

(** C3, as the code has it: when [potrace] exits with a status other than
    0, the call raises
    CalledProcessError with that status, after the clean-up of the
    [finally] block has run on the world the failed run left; the tool was
    run once (the trace of the call holds that single run); what the run
    left at the output path is what the call leaves there, so that partial
    output stays; and, without retention, the bitmap and the directory are
    removed before the error leaves the call, unless the operating system
    refuses a removal. *)
Theorem tool_failure_raises_and_cleans_up
    env input_file output_file keep w c img temp_dir run returncode out :
  fs w !! input_file = Some (File c) ->
  decode env c = Some img ->
  next_temp_dir env (fs w) = Some temp_dir ->
  refused env (SysWrite (bmp_path_of temp_dir)) = false ->
  which env "potrace" = Some run ->
  run (potrace_args (default_output input_file output_file)
         (bmp_path_of temp_dir))
    (fs (bitmap_saved env img temp_dir w)) = (returncode, out) ->
  returncode <> 0 ->
  let output := default_output input_file output_file in
  let args := potrace_args output (bmp_path_of temp_dir) in
  let w' := snd (png_to_svg env input_file output_file keep w) in
  png_to_svg env input_file output_file keep w
  = (Raise (CalledProcessError returncode args),
     snd (cleanup env temp_dir keep
            (printed (Error_during_conversion
                        (CalledProcessError returncode args))
               (ran args returncode out (bitmap_saved env img temp_dir w)))))
  /\ exit_status (CalledProcessError returncode args) = Some returncode
  /\ runs (trace w') = runs (trace w) ++ [(args, returncode)]
  /\ (output <> temp_dir -> output <> bmp_path_of temp_dir ->
      fs w' !! output
      = tool_write args out (fs (bitmap_saved env img temp_dir w)) !! output)
  /\ (forall partial,
        out = Some partial -> fs w !! output <> Some Dir ->
        output <> temp_dir -> output <> bmp_path_of temp_dir ->
        fs w' !! output = Some (File partial))
  /\ (keep = false -> removal_allowed env temp_dir -> scratch_gone temp_dir w').
Proof.
  intros Hin Hdec Htmp Hwr Hwhich Hrun Hrc output args w'.
  pose proof (png_to_svg_tool_failed env input_file output_file keep w c img
                temp_dir Hin Hdec Htmp Hwr run returncode out Hwhich Hrun Hrc)
    as Hcall. cbv zeta in Hcall. fold output args in Hcall.
  assert (Hframe : output <> temp_dir -> output <> bmp_path_of temp_dir ->
            fs w' !! output
            = tool_write args out (fs (bitmap_saved env img temp_dir w))
                !! output).
  { intros Hd Hb. subst w'. rewrite Hcall. cbn [snd].
    now rewrite cleanup_frame by assumption. }
  split; [exact Hcall|]. split; [reflexivity|]. split; [|split; [|split]].
  - subst w'. rewrite Hcall. cbn [snd].
    rewrite (without_run_runs _ _ (cleanup_without_run _ _ _ _)).
    unfold printed, ran, effect. cbn [trace].
    now rewrite !runs_app, runs_bitmap_saved, app_nil_r.
  - exact Hframe.
  - intros partial -> Hnd Hd Hb. rewrite Hframe by assumption.
    apply tool_write_output; [reflexivity|]. unfold_worlds.
    now rewrite !lookup_insert_ne by congruence.
  - intros -> Hok. subst w'.
    apply png_to_svg_scratch_gone; eauto.
Qed.

Lemma tool_failure_witness :
  which (sample_env allow_all (Some potrace_fails)) "potrace"
  = Some potrace_fails
  /\ fst (png_to_svg (sample_env allow_all (Some potrace_fails)) "photo.png"
            None false sample_world)
     = Raise (CalledProcessError 2
                (potrace_args "photo.svg" "/tmp/tmpa1b2c3/temp.bmp"))
  /\ fs (snd (png_to_svg (sample_env allow_all (Some potrace_fails))
                "photo.png" None false sample_world)) !! "photo.svg"
     = Some (File [60; 115])
  /\ scratch_gone "/tmp/tmpa1b2c3"
       (snd (png_to_svg (sample_env allow_all (Some potrace_fails))
               "photo.png" None false sample_world)).
Proof.
  split; [reflexivity|].
  assert (Hne : (2 <> 0)%Z) by discriminate.
  destruct (tool_failure_raises_and_cleans_up
              (sample_env allow_all (Some potrace_fails)) "photo.png" None
              false sample_world [1; 200; 100; 50]
              (Image "RGB" (1, 1) [200; 100; 50]) "/tmp/tmpa1b2c3"
              potrace_fails 2 (Some [60; 115])
              eq_refl eq_refl eq_refl eq_refl eq_refl eq_refl Hne)
    as (Hr & _ & _ & _ & Hpartial & Hgone).
  split; [now rewrite Hr|]. split.
  - apply (Hpartial [60; 115]); [reflexivity|discriminate..].
  - apply Hgone; [reflexivity|]. split; reflexivity.
Defined.

(** C3 as stated fails where the operating system refuses a removal: the
    tool exits with status 2, the call raises CalledProcessError 2 without
    retention, and the scratch directory is still there after it. *)
Lemma tool_failure_directory_left :
  which (sample_env refuse_rmdir (Some potrace_fails)) "potrace"
  = Some potrace_fails
  /\ fst (png_to_svg (sample_env refuse_rmdir (Some potrace_fails))
            "photo.png" None false sample_world)
     = Raise (CalledProcessError 2
                (potrace_args "photo.svg" "/tmp/tmpa1b2c3/temp.bmp"))
  /\ fs (snd (png_to_svg (sample_env refuse_rmdir (Some potrace_fails))
                "photo.png" None false sample_world)) !! "/tmp/tmpa1b2c3"
     = Some Dir
  /\ ~ scratch_gone "/tmp/tmpa1b2c3"
         (snd (png_to_svg (sample_env refuse_rmdir (Some potrace_fails))
                 "photo.png" None false sample_world)).
Proof.
  split; [reflexivity|]. split; [vm_compute; reflexivity|].
  split; [vm_compute; reflexivity|].
  intros [_ H]. vm_compute in H. discriminate.
Qed.

(** C7, as the code has it: when no [potrace] executable is found, the call
    raises the FileNotFoundError of the failed spawn, which is the
    exception class of a missing input file and carries no exit status
    (CalledProcessError is raised only for a tool that ran); no run is
    recorded; without retention the bitmap and the directory are removed
    before the error leaves the call, unless the operating system refuses
    a removal; with retention the directory and the bitmap stay. *)
Theorem missing_tool_raises_file_not_found
    env input_file output_file keep w c img temp_dir :
  fs w !! input_file = Some (File c) ->
  decode env c = Some img ->
  next_temp_dir env (fs w) = Some temp_dir ->
  refused env (SysWrite (bmp_path_of temp_dir)) = false ->
  which env "potrace" = None ->
  let e := FileNotFoundError "[Errno 2] No such file or directory: 'potrace'" in
  let w' := snd (png_to_svg env input_file output_file keep w) in
  png_to_svg env input_file output_file keep w
  = (Raise e,
     snd (cleanup env temp_dir keep
            (printed (Error_during_conversion e)
               (bitmap_saved env img temp_dir w))))
  /\ exit_status e = None
  /\ runs (trace w') = runs (trace w)
  /\ (keep = false -> removal_allowed env temp_dir -> scratch_gone temp_dir w')
  /\ (keep = true ->
      fs w' !! temp_dir = Some Dir
      /\ fs w' !! bmp_path_of temp_dir
         = Some (File (encode_bmp env (grayscale env img)))).
Proof.
  intros Hin Hdec Htmp Hwr Hwhich e w'.
  pose proof (png_to_svg_tool_missing env input_file output_file keep w c img
                temp_dir Hin Hdec Htmp Hwr Hwhich) as Hcall.
  cbv zeta in Hcall. fold e in Hcall.
  split; [exact Hcall|]. split; [reflexivity|]. split; [|split].
  - subst w'. rewrite Hcall. cbn [snd].
    rewrite (without_run_runs _ _ (cleanup_without_run _ _ _ _)).
    unfold printed, effect. cbn [trace].
    now rewrite !runs_app, runs_bitmap_saved, app_nil_r.
  - intros -> Hok. subst w'. apply png_to_svg_scratch_gone; eauto.
  - intros ->. subst w'. rewrite Hcall. cbn [snd cleanup negb ret].
    pose proof (bmp_path_ne temp_dir) as Hne. unfold_worlds. split.
    + now rewrite lookup_insert_ne, lookup_insert_eq.
    + apply lookup_insert_eq.
Qed.

Lemma missing_tool_witness :
  which (sample_env allow_all None) "potrace" = None
  /\ fst (png_to_svg (sample_env allow_all None) "photo.png" None false
            sample_world)
     = Raise (FileNotFoundError
                "[Errno 2] No such file or directory: 'potrace'")
  /\ scratch_gone "/tmp/tmpa1b2c3"
       (snd (png_to_svg (sample_env allow_all None) "photo.png" None false
               sample_world)).
Proof.
  split; [reflexivity|].
  destruct (missing_tool_raises_file_not_found
              (sample_env allow_all None) "photo.png" None false sample_world
              [1; 200; 100; 50] (Image "RGB" (1, 1) [200; 100; 50])
              "/tmp/tmpa1b2c3" eq_refl eq_refl eq_refl eq_refl eq_refl)
    as (Hr & _ & _ & Hgone & _).
  split; [now rewrite Hr|]. apply Hgone; [reflexivity|]. split; reflexivity.
Defined.

(** C7 as stated fails: with the input in place, a decodable image and no
    [potrace] on PATH, the error raised is not a CalledProcessError (of any
    exit status): it is a FileNotFoundError, like the one of line 65.  And
    the scratch workspace is not always cleaned up: with retention the
    directory and the bitmap stay, and without retention the directory
    stays when the operating system refuses its removal. *)
Lemma missing_tool_is_not_a_tool_failure :
  which (sample_env allow_all None) "potrace" = None
  /\ (exists msg,
        fst (png_to_svg (sample_env allow_all None) "photo.png" None false
               sample_world)
        = Raise (FileNotFoundError msg))
  /\ ~ (exists returncode cmd,
          fst (png_to_svg (sample_env allow_all None) "photo.png" None false
                 sample_world)
          = Raise (CalledProcessError returncode cmd))
  /\ is_file (fs (snd (png_to_svg (sample_env allow_all None) "photo.png"
                         None true sample_world))
                !! "/tmp/tmpa1b2c3/temp.bmp") = true
  /\ fs (snd (png_to_svg (sample_env refuse_rmdir None) "photo.png" None
                false sample_world)) !! "/tmp/tmpa1b2c3"
     = Some Dir.
Proof.
  split; [reflexivity|]. split; [|split; [|split]].
  - eexists. vm_compute. reflexivity.
  - intros (returncode & cmd & H). vm_compute in H. discriminate.
  - vm_compute. reflexivity.
  - vm_compute. reflexivity.
Qed.

(** C5, as the code has it: for a call that made its scratch directory,
    whatever its outcome: without retention (and the operating system
    letting the removals through) neither the bitmap nor the directory is
    left; with retention the directory is still there, and the bitmap is
    in it exactly when step 1 of the call had saved it, which a call whose
    input cannot be opened or decoded never does. *)
Theorem scratch_after_call env input_file output_file keep w temp_dir :
  is_Some (fs w !! input_file) ->
  next_temp_dir env (fs w) = Some temp_dir ->
  let w' := snd (png_to_svg env input_file output_file keep w) in
  (keep = false -> removal_allowed env temp_dir -> scratch_gone temp_dir w')
  /\ (keep = true ->
      fs w' !! temp_dir = Some Dir
      /\ match staged env input_file temp_dir (fs w) with
         | None => fs w' !! bmp_path_of temp_dir = None
         | Some b =>
             is_file (fs w' !! bmp_path_of temp_dir) = true
             /\ (default_output input_file output_file <> bmp_path_of temp_dir ->
                 fs w' !! bmp_path_of temp_dir = Some (File b))
         end).
Proof.
  intros Hin Htmp w'. subst w'. split.
  - intros -> Hok. now apply png_to_svg_scratch_gone.
  - intros ->.
    destruct (png_to_svg_kept env input_file output_file w temp_dir Hin Htmp)
      as (Hd & Hb & _).
    split; assumption.
Qed.

Lemma scratch_after_call_witness :
  is_Some (fs sample_world !! "art.png")
  /\ scratch_gone "/tmp/tmpa1b2c3"
       (snd (png_to_svg (sample_env allow_all (Some potrace_ok)) "art.png"
               (Some "out/result.svg") false sample_world))
  /\ fs (snd (png_to_svg (sample_env allow_all (Some potrace_ok)) "art.png"
                (Some "out/result.svg") true sample_world))
       !! "/tmp/tmpa1b2c3/temp.bmp"
     = Some (File [66; 77; 128]).
Proof.
  assert (Hin : is_Some (fs sample_world !! "art.png")) by (now eexists).
  split; [exact Hin|]. split.
  - destruct (scratch_after_call (sample_env allow_all (Some potrace_ok))
                "art.png" (Some "out/result.svg") false sample_world
                "/tmp/tmpa1b2c3" Hin eq_refl) as [H _].
    apply H; [reflexivity|]. split; reflexivity.
  - destruct (scratch_after_call (sample_env allow_all (Some potrace_ok))
                "art.png" (Some "out/result.svg") true sample_world
                "/tmp/tmpa1b2c3" Hin eq_refl) as [_ H].
    destruct (H eq_refl) as [_ Hb]. apply Hb. discriminate.
Defined.

(** C5 as stated fails: a call with retention whose input exists but is not
    an image makes its scratch directory, raises, and leaves the directory
    without any bitmap in it. *)
Lemma retained_scratch_has_no_bitmap :
  is_Some (fs sample_world !! "bad.png")
  /\ next_temp_dir (sample_env allow_all (Some potrace_ok)) (fs sample_world)
     = Some "/tmp/tmpa1b2c3"
  /\ fst (png_to_svg (sample_env allow_all (Some potrace_ok)) "bad.png" None
            true sample_world)
     = Raise (UnidentifiedImageError "bad.png")
  /\ fs (snd (png_to_svg (sample_env allow_all (Some potrace_ok)) "bad.png"
                None true sample_world)) !! "/tmp/tmpa1b2c3"
     = Some Dir
  /\ fs (snd (png_to_svg (sample_env allow_all (Some potrace_ok)) "bad.png"
                None true sample_world))
       !! bmp_path_of "/tmp/tmpa1b2c3"
     = None.
Proof.
  split; [now eexists|]. repeat split; vm_compute; reflexivity.
Qed.

(** C6: when the removal of the temporary files raises, the call has the
    outcome of its guarded conversion, a returned output path or the error
    raised there, which is also the outcome of the same call with retention
    (where nothing is removed); the failed removal adds one line to the
    trace, the warning, and changes nothing else. *)
Theorem cleanup_failure_is_only_a_warning
    env input_file output_file w temp_dir r w1 e w2 :
  is_Some (fs w !! input_file) ->
  next_temp_dir env (fs w) = Some temp_dir ->
  guarded_conversion env input_file (default_output input_file output_file)
    temp_dir (made_dir temp_dir w) = (r, w1) ->
  remove_temporary_files env temp_dir w1 = (Raise e, w2) ->
  png_to_svg env input_file output_file false w
  = (r, printed (Warning_could_not_clean_up e) w2)
  /\ r = fst (png_to_svg env input_file output_file true w)
  /\ (forall p, r = Return p -> p = default_output input_file output_file)
  /\ fs (printed (Warning_could_not_clean_up e) w2) = fs w2
  /\ trace (printed (Warning_could_not_clean_up e) w2)
     = trace w2 ++ [Printed (Warning_could_not_clean_up e)].
Proof.
  intros Hin Htmp Hg Hrm. split; [|split; [|split; [|split]]].
  - rewrite (png_to_svg_reached _ _ _ _ _ _ Hin Htmp).
    rewrite (try_finally_cleanup _ _ _ _ _ _ _ Hg).
    now rewrite (cleanup_raised _ _ _ _ _ Hrm).
  - rewrite (png_to_svg_reached _ _ _ _ _ _ Hin Htmp).
    now rewrite (try_finally_cleanup _ _ _ _ _ _ _ Hg).
  - intros p ->. eapply guarded_conversion_return; eassumption.
  - reflexivity.
  - reflexivity.
Qed.

Lemma cleanup_failure_witness :
  is_Some (fs sample_world !! "photo.png")
  /\ fst (remove_temporary_files (sample_env refuse_rmdir (Some potrace_ok))
            "/tmp/tmpa1b2c3"
            (snd (guarded_conversion (sample_env refuse_rmdir (Some potrace_ok))
                    "photo.png" "photo.svg" "/tmp/tmpa1b2c3"
                    (made_dir "/tmp/tmpa1b2c3" sample_world))))
     = Raise (PermissionError "/tmp/tmpa1b2c3")
  /\ fst (png_to_svg (sample_env refuse_rmdir (Some potrace_ok)) "photo.png"
            None false sample_world)
     = Return "photo.svg".
Proof.
  assert (Hin : is_Some (fs sample_world !! "photo.png")) by (now eexists).
  split; [exact Hin|]. split; [vm_compute; reflexivity|].
  destruct (cleanup_failure_is_only_a_warning
              (sample_env refuse_rmdir (Some potrace_ok)) "photo.png" None
              sample_world "/tmp/tmpa1b2c3" (Return "photo.svg")
              (snd (guarded_conversion
                      (sample_env refuse_rmdir (Some potrace_ok))
                      "photo.png" "photo.svg" "/tmp/tmpa1b2c3"
                      (made_dir "/tmp/tmpa1b2c3" sample_world)))
              (PermissionError "/tmp/tmpa1b2c3")
              (snd (remove_temporary_files
                      (sample_env refuse_rmdir (Some potrace_ok))
                      "/tmp/tmpa1b2c3"
                      (snd (guarded_conversion
                              (sample_env refuse_rmdir (Some potrace_ok))
                              "photo.png" "photo.svg" "/tmp/tmpa1b2c3"
                              (made_dir "/tmp/tmpa1b2c3" sample_world)))))
              Hin eq_refl)
    as [H _].
  - vm_compute. reflexivity.
  - vm_compute. reflexivity.
  - now rewrite H.
Defined.

(** A failed clean-up does not hide the error of the conversion either. *)
Example cleanup_failure_after_tool_failure :
  png_to_svg (sample_env refuse_rmdir (Some potrace_fails)) "photo.png" None
    false sample_world
  = (Raise (CalledProcessError 2
              (potrace_args "photo.svg" "/tmp/tmpa1b2c3/temp.bmp")),
     World (<["photo.svg" := File [60; 115]]>
              (<["/tmp/tmpa1b2c3" := Dir]> (fs sample_world)))
       [MadeDir "/tmp/tmpa1b2c3";
        Saved "/tmp/tmpa1b2c3/temp.bmp" [66; 77; 124];
        Ran (potrace_args "photo.svg" "/tmp/tmpa1b2c3/temp.bmp") 2;
        Printed (Error_during_conversion
                   (CalledProcessError 2
                      (potrace_args "photo.svg" "/tmp/tmpa1b2c3/temp.bmp")));
        Removed "/tmp/tmpa1b2c3/temp.bmp";
        Printed (Warning_could_not_clean_up
                   (PermissionError "/tmp/tmpa1b2c3"))]).
Proof. vm_compute. reflexivity. Qed.

(** C10, as the code has it: in a file system where every entry has the
    one path that names it (no links, no other spelling such as
    [./photo.png], no names differing by letter case only), a call whose
    output file is not its input file leaves the entry at the input path as
    it found it, whatever the outcome; more generally every entry that
    existed before the call and is not the output file is unchanged, the
    call writing only the bitmap in its new directory and, through
    [potrace], the output file. *)
Theorem input_file_unchanged env input_file output_file keep w :
  default_output input_file output_file <> input_file ->
  fs (snd (png_to_svg env input_file output_file keep w)) !! input_file
  = fs w !! input_file
  /\ forall k,
       is_Some (fs w !! k) -> k <> default_output input_file output_file ->
       fs (snd (png_to_svg env input_file output_file keep w)) !! k
       = fs w !! k.
Proof.
  intros Hout. split.
  - destruct (fs w !! input_file) as [e|] eqn:Hin.
    + rewrite <- Hin. apply png_to_svg_frame; [now exists e|congruence].
    + now rewrite png_to_svg_missing_input by assumption.
  - intros k. apply png_to_svg_frame.
Qed.

Lemma input_file_unchanged_witness :
  default_output "photo.png" None <> "photo.png"
  /\ fs (snd (png_to_svg (sample_env allow_all (Some potrace_ok)) "photo.png"
                None false sample_world)) !! "photo.png"
     = Some (File [1; 200; 100; 50]).
Proof.
  assert (H : default_output "photo.png" None <> "photo.png") by discriminate.
  split; [exact H|].
  destruct (input_file_unchanged (sample_env allow_all (Some potrace_ok))
              "photo.png" None false sample_world H) as [Hin _].
  rewrite Hin. reflexivity.
Defined.

(** C10 as stated fails: when the output file is the input file, named so
    by the caller or by the default for an input whose name ends in
    [.svg], a successful call leaves the output of [potrace] where the
    input was. *)
Lemma input_file_overwritten :
  (fs sample_world !! "photo.png" = Some (File [1; 200; 100; 50])
   /\ png_to_svg (sample_env allow_all (Some potrace_ok)) "photo.png"
        (Some "photo.png") false sample_world
      = (Return "photo.png",
         snd (png_to_svg (sample_env allow_all (Some potrace_ok)) "photo.png"
                (Some "photo.png") false sample_world))
   /\ fs (snd (png_to_svg (sample_env allow_all (Some potrace_ok)) "photo.png"
                 (Some "photo.png") false sample_world)) !! "photo.png"
      = Some (File [60; 115; 118; 103; 62]))
  /\ (fs sample_world !! "scan.svg" = Some (File [2; 77])
      /\ fs (snd (png_to_svg (sample_env allow_all (Some potrace_ok))
                    "scan.svg" None false sample_world)) !! "scan.svg"
         = Some (File [60; 115; 118; 103; 62])).
Proof. repeat split; vm_compute; reflexivity. Qed.

(** ** The two scenarios of the specification *)

(** [photo.png], an RGB image, no output path, no retention: the tool is
    run on the grayscale bitmap, the result is [photo.svg], and nothing of
    the scratch workspace is left. *)
Example scenario_photo :
  png_to_svg (sample_env allow_all (Some potrace_ok)) "photo.png" None false
    sample_world
  = (Return "photo.svg",
     World (<["photo.svg" := File [60; 115; 118; 103; 62]]> (fs sample_world))
       [MadeDir "/tmp/tmpa1b2c3";
        Saved "/tmp/tmpa1b2c3/temp.bmp" [66; 77; 124];
        Ran (potrace_args "photo.svg" "/tmp/tmpa1b2c3/temp.bmp") 0;
        Printed (Successfully_converted "photo.png" "photo.svg");
        Removed "/tmp/tmpa1b2c3/temp.bmp";
        RemovedDir "/tmp/tmpa1b2c3"]).
Proof. vm_compute. reflexivity. Qed.

(** [art.png], already grayscale, output [out/result.svg], retention: the
    result is [out/result.svg] and the scratch directory still holds the
    bitmap, whose pixels are those of the source. *)
Example scenario_art :
  png_to_svg (sample_env allow_all (Some potrace_ok)) "art.png"
    (Some "out/result.svg") true sample_world
  = (Return "out/result.svg",
     World (<["out/result.svg" := File [60; 115; 118; 103; 62]]>
              (<["/tmp/tmpa1b2c3/temp.bmp" := File [66; 77; 128]]>
                 (<["/tmp/tmpa1b2c3" := Dir]> (fs sample_world))))
       [MadeDir "/tmp/tmpa1b2c3";
        Saved "/tmp/tmpa1b2c3/temp.bmp" [66; 77; 128];
        Ran (potrace_args "out/result.svg" "/tmp/tmpa1b2c3/temp.bmp") 0;
        Printed (Successfully_converted "art.png" "out/result.svg")]).
Proof. vm_compute. reflexivity. Qed.

(** ** Every way a call can go *)

Lemma guarded_conversion_outcome
    env input_file output_file temp_dir w r w1 :
  is_Some (fs w !! input_file) ->
  next_temp_dir env (fs w) = Some temp_dir ->
  guarded_conversion env input_file output_file temp_dir (made_dir temp_dir w)
  = (r, w1) ->
  conversion_outcome env input_file output_file temp_dir w r w1.
Proof.
  intros [e He] Htmp.
  destruct (decode_failure env input_file e) as [x|] eqn:Hx.
  - rewrite (guarded_decode_failure _ _ output_file _ _ Htmp _ _ He Hx).
    intros [= <- <-]. eapply Decode_failed; eassumption.
  - destruct e as [|c]; [discriminate|]. cbn [decode_failure] in Hx.
    destruct (decode env c) as [img|] eqn:Hdec;
      [clear Hx|destruct (header env c) as [[m msg]|]; discriminate].
    destruct (refused env (SysWrite (bmp_path_of temp_dir))) eqn:Hw.
    + rewrite (guarded_save_refused _ _ output_file _ _ Htmp _ _ He Hdec Hw).
      intros [= <- <-]. eapply Save_refused; eassumption.
    + destruct (which env "potrace") as [run|] eqn:Hwhich.
      * destruct (run (potrace_args output_file (bmp_path_of temp_dir))
                    (fs (bitmap_saved env img temp_dir w)))
          as [returncode out] eqn:Hrun.
        rewrite (guarded_tool_ran _ _ _ _ _ Htmp _ _ _ _ _
                   He Hdec Hw Hwhich Hrun).
        destruct (Z.eqb_spec returncode 0) as [->|Hrc]; intros [= <- <-].
        -- eapply Tool_succeeded; eassumption.
        -- eapply Tool_failed; eassumption.
      * rewrite (guarded_tool_missing _ _ output_file _ _ Htmp _ _
                   He Hdec Hw Hwhich).
        intros [= <- <-]. eapply Tool_missing; eassumption.
Qed.

Lemma png_to_svg_outcome env input_file output_file keep w temp_dir :
  is_Some (fs w !! input_file) ->
  next_temp_dir env (fs w) = Some temp_dir ->
  exists r w1,
    conversion_outcome env input_file
      (default_output input_file output_file) temp_dir w r w1
    /\ png_to_svg env input_file output_file keep w
       = (r, snd (cleanup env temp_dir keep w1)).
Proof.
  intros Hin Htmp.
  destruct (png_to_svg_split env input_file output_file keep w temp_dir Hin Htmp)
    as (r & w1 & Hg & Hp).
  exists r, w1. split; [|exact Hp].
  eapply guarded_conversion_outcome; eassumption.
Qed.

Lemma prints_app t1 t2 : prints (t1 ++ t2) = prints t1 ++ prints t2.
Proof.
  induction t1 as [|e t1 IH]; [reflexivity|].
  destruct e; cbn [prints app]; now rewrite ?IH.
Qed.

Lemma conversion_outcome_prints
    env input_file output_file temp_dir w r w1 :
  conversion_outcome env input_file output_file temp_dir w r w1 ->
  prints (trace w1) = prints (trace w) ++ [report input_file r].
Proof.
  intros H. inversion H; subst; unfold_worlds;
    rewrite !prints_app; cbn [prints report]; now rewrite ?app_nil_r.
Qed.

Lemma conversion_outcome_runs
    env input_file output_file temp_dir w r w1 :
  conversion_outcome env input_file output_file temp_dir w r w1 ->
  (runs (trace w1) = runs (trace w) /\ exists e, r = Raise e)
  \/ exists returncode,
       runs (trace w1)
       = runs (trace w)
         ++ [(potrace_args output_file (bmp_path_of temp_dir), returncode)]
       /\ (returncode = 0 -> r = Return output_file)
       /\ (returncode <> 0 ->
           r = Raise (CalledProcessError returncode
                        (potrace_args output_file (bmp_path_of temp_dir)))).
Proof.
  intros H. inversion H; subst; unfold_worlds;
    rewrite !runs_app; cbn [runs]; rewrite ?app_nil_r.
  - left. eauto.
  - left. eauto.
  - left. eauto.
  - right. exists returncode.
    split; [reflexivity|split; intros; (reflexivity || congruence)].
  - right. exists 0.
    split; [reflexivity|split; intros; (reflexivity || congruence)].
Qed.

(** The clean-up prints nothing but, at most, its warning. *)
Lemma remove_temporary_files_prints env temp_dir w r w' :
  remove_temporary_files env temp_dir w = (r, w') ->
  prints (trace w') = prints (trace w).
Proof.
  assert (Hrm : forall p w r w', os_remove env p w = (r, w') ->
            prints (trace w') = prints (trace w)).
  { clear. intros p w r w'. unfold os_remove.
    destruct (refused env (SysRemove p)); [now intros [= _ <-]|].
    destruct (fs w !! p) as [[|c]|]; intros [= _ <-]; try reflexivity.
    unfold_worlds. now rewrite prints_app, app_nil_r. }
  assert (Hrd : forall d w r w', os_rmdir env d w = (r, w') ->
            prints (trace w') = prints (trace w)).
  { clear. intros d w r w'. unfold os_rmdir.
    destruct (refused env (SysRmdir d)); [now intros [= _ <-]|].
    destruct (fs w !! d) as [[|c]|]; intros [= _ <-]; try reflexivity.
    unfold_worlds. now rewrite prints_app, app_nil_r. }
  unfold remove_temporary_files, bind at 1, os_path_exists. intros H.
  unfold bind in H.
  destruct (fs w !! Path.join temp_dir "temp.bmp") as [e|].
  - destruct (os_remove env (Path.join temp_dir "temp.bmp") w)
      as [[[]|x] w1] eqn:H1.
    + rewrite (Hrd _ _ _ _ H). eapply Hrm; eassumption.
    + injection H as _ <-. eapply Hrm; eassumption.
  - unfold ret in H. eapply Hrd; eassumption.
Qed.

Lemma cleanup_prints env temp_dir keep w :
  exists warn,
    prints (trace (snd (cleanup env temp_dir keep w)))
    = prints (trace w) ++ warn
    /\ warning_only warn
    /\ (keep = true -> warn = []).
Proof.
  unfold cleanup. destruct keep; cbn [negb].
  - exists []. cbn [snd ret]. rewrite app_nil_r.
    split; [reflexivity|split; [now left|reflexivity]].
  - unfold try_except.
    destruct (remove_temporary_files env temp_dir w) as [[[]|x] w2] eqn:Hr;
      cbn [snd].
    + exists []. rewrite app_nil_r.
      rewrite (remove_temporary_files_prints _ _ _ _ _ Hr).
      split; [reflexivity|split; [now left|discriminate]].
    + exists [Warning_could_not_clean_up x]. unfold print. cbn [snd].
      unfold_worlds.
      rewrite prints_app, (remove_temporary_files_prints _ _ _ _ _ Hr).
      split; [reflexivity|split; [right; eauto|discriminate]].
Qed.

Lemma tool_write_is_Some args out (files : gmap string entry) k :
  is_Some (files !! k) -> is_Some (tool_write args out files !! k).
Proof.
  intros Hk. unfold tool_write.
  destruct out as [c|], (output_option args) as [o|]; try assumption.
  destruct (decide (o = k)) as [->|Hne].
  - destruct (files !! k) as [[|c']|] eqn:E;
      rewrite ?lookup_insert_eq, ?E; eauto.
  - destruct (files !! o) as [[|c']|]; try assumption;
      now rewrite lookup_insert_ne.
Qed.

(** Removing the scratch entries from a world that differs from [files]
    only by them gives [files] back. *)
Lemma cleanup_leaves env temp_dir w1 (files : gmap string entry) :
  removal_allowed env temp_dir ->
  fs w1 !! temp_dir = Some Dir ->
  fs w1 !! bmp_path_of temp_dir = None
  \/ is_file (fs w1 !! bmp_path_of temp_dir) = true ->
  files !! temp_dir = None ->
  files !! bmp_path_of temp_dir = None ->
  (forall k, k <> temp_dir -> k <> bmp_path_of temp_dir ->
     fs w1 !! k = files !! k) ->
  fs (snd (cleanup env temp_dir false w1)) = files.
Proof.
  intros Hok Hd Hb Hfd Hfb Hsame.
  destruct (remove_temporary_files_allowed env temp_dir w1 Hok Hd Hb)
    as (w2 & Hrm & [Hgb Hgd] & Hframe).
  rewrite (cleanup_done _ _ _ _ Hrm). cbn [snd].
  apply map_eq. intros k.
  destruct (decide (k = temp_dir)) as [->|Hkd]; [congruence|].
  destruct (decide (k = bmp_path_of temp_dir)) as [->|Hkb]; [congruence|].
  rewrite Hframe by assumption. now apply Hsame.
Qed.

Lemma conversion_outcome_post
    env input_file output_file temp_dir w r w1 :
  next_temp_dir env (fs w) = Some temp_dir ->
  conversion_outcome env input_file output_file temp_dir w r w1 ->
  fs w1 !! temp_dir = Some Dir
  /\ (fs w1 !! bmp_path_of temp_dir = None
      \/ is_file (fs w1 !! bmp_path_of temp_dir) = true).
Proof.
  intros Htmp H. destruct (next_temp_dir_fresh _ _ _ Htmp) as [Hd Hb].
  pose proof (bmp_path_ne temp_dir) as Hne.
  inversion H; subst; unfold_worlds.
  - split; [apply lookup_insert_eq|left; now rewrite lookup_insert_ne].
  - split; [apply lookup_insert_eq|left; now rewrite lookup_insert_ne].
  - split; [now rewrite lookup_insert_ne, lookup_insert_eq|].
    right. now rewrite lookup_insert_eq.
  - split.
    + apply tool_write_dir. now rewrite lookup_insert_ne, lookup_insert_eq.
    + right. apply tool_write_file. now rewrite lookup_insert_eq.
  - split.
    + apply tool_write_dir. now rewrite lookup_insert_ne, lookup_insert_eq.
    + right. apply tool_write_file. now rewrite lookup_insert_eq.
Qed.

Lemma app_singleton_neq {A} (l : list A) x : l ++ [x] <> l.
Proof.
  intros H. apply (f_equal length) in H. rewrite length_app in H.
  cbn [length] in H. lia.
Qed.

(** ** More of [png_to_svg] *)

(** X1: when [tempfile.mkdtemp] finds no usable name, its error leaves the call
    as it is: the [try] has not been entered, so nothing is printed, no
    clean-up runs and the world is the one the call found. *)
Theorem no_temp_dir_is_not_reported env input_file output_file keep w :
  is_Some (fs w !! input_file) ->
  next_temp_dir env (fs w) = None ->
  png_to_svg env input_file output_file keep w
  = (Raise (FileExistsError "No usable temporary directory name found"), w).
Proof.
  intros [e He] Htmp. unfold png_to_svg.
  assert (Hexists : os_path_exists input_file w = (Return true, w))
    by (unfold os_path_exists; now rewrite He).
  rewrite (bind_return _ _ _ _ _ Hexists). cbn [negb].
  apply bind_raise. unfold tempfile_mkdtemp.
  unfold next_temp_dir in Htmp. now rewrite Htmp.
Qed.

Lemma no_temp_dir_witness :
  is_Some (fs (made_dir "/tmp/tmpa1b2c3" sample_world) !! "photo.png")
  /\ next_temp_dir (sample_env allow_all (Some potrace_ok))
       (fs (made_dir "/tmp/tmpa1b2c3" sample_world)) = None
  /\ png_to_svg (sample_env allow_all (Some potrace_ok)) "photo.png" None false
       (made_dir "/tmp/tmpa1b2c3" sample_world)
     = (Raise (FileExistsError "No usable temporary directory name found"),
        made_dir "/tmp/tmpa1b2c3" sample_world).
Proof.
  assert (Hin : is_Some (fs (made_dir "/tmp/tmpa1b2c3" sample_world)
                           !! "photo.png")) by (now eexists).
  split; [exact Hin|]. split; [reflexivity|].
  apply (no_temp_dir_is_not_reported
           (sample_env allow_all (Some potrace_ok)) "photo.png" None false
           (made_dir "/tmp/tmpa1b2c3" sample_world) Hin).
  reflexivity.
Defined.

(** X2: a call runs at most one external command, and that command is
    [potrace --svg --output <output file> <bitmap>]. *)
Theorem at_most_one_run env input_file output_file keep w :
  runs (trace (snd (png_to_svg env input_file output_file keep w)))
  = runs (trace w)
  \/ exists temp_dir returncode,
       next_temp_dir env (fs w) = Some temp_dir
       /\ runs (trace (snd (png_to_svg env input_file output_file keep w)))
          = runs (trace w)
            ++ [(["potrace"; "--svg"; "--output";
                  default_output input_file output_file;
                  bmp_path_of temp_dir], returncode)].
Proof.
  destruct (fs w !! input_file) as [e|] eqn:He.
  - destruct (next_temp_dir env (fs w)) as [d|] eqn:Htmp.
    + destruct (png_to_svg_outcome env input_file output_file keep w d)
        as (r & w1 & Hout & ->); [now exists e|assumption|]. cbn [snd].
      rewrite (without_run_runs _ _ (cleanup_without_run _ _ _ _)).
      destruct (conversion_outcome_runs _ _ _ _ _ _ _ Hout)
        as [[Hr _]|(rc & Hr & _)].
      * now left.
      * right. exists d, rc. split; [reflexivity|exact Hr].
    + left. now rewrite png_to_svg_no_temp_dir by (eauto || assumption).
  - left. now rewrite png_to_svg_missing_input by assumption.
Qed.

(** X3: a call returns only after a run of [potrace] that exited with status
    0: a returned path is never the sign of a skipped or failed trace. *)
Theorem return_follows_exit_zero env input_file output_file keep w p w' :
  png_to_svg env input_file output_file keep w = (Return p, w') ->
  exists temp_dir,
    next_temp_dir env (fs w) = Some temp_dir
    /\ runs (trace w')
       = runs (trace w) ++ [(potrace_args p (bmp_path_of temp_dir), 0)].
Proof.
  intros H.
  destruct (fs w !! input_file) as [e|] eqn:He.
  - destruct (next_temp_dir env (fs w)) as [d|] eqn:Htmp.
    + destruct (png_to_svg_outcome env input_file output_file keep w d)
        as (r & w1 & Hout & Hp); [now exists e|assumption|].
      rewrite Hp in H. injection H as -> <-.
      exists d. split; [reflexivity|].
      rewrite (without_run_runs _ _ (cleanup_without_run _ _ _ _)).
      destruct (conversion_outcome_runs _ _ _ _ _ _ _ Hout)
        as [[_ [x Hx]]|(rc & Hr & H0 & Hn)]; [discriminate|].
      destruct (Z.eq_dec rc 0) as [->|Hrc].
      * specialize (H0 eq_refl). injection H0 as ->. exact Hr.
      * specialize (Hn Hrc). discriminate.
    + rewrite png_to_svg_no_temp_dir in H by (eauto || assumption).
      discriminate.
  - rewrite png_to_svg_missing_input in H by assumption. discriminate.
Qed.

Lemma return_follows_exit_zero_witness :
  png_to_svg (sample_env allow_all (Some potrace_ok)) "art.png"
    (Some "out/result.svg") true sample_world
  = (Return "out/result.svg",
     snd (png_to_svg (sample_env allow_all (Some potrace_ok)) "art.png"
            (Some "out/result.svg") true sample_world))
  /\ exists temp_dir,
       runs (trace (snd (png_to_svg (sample_env allow_all (Some potrace_ok))
                           "art.png" (Some "out/result.svg") true
                           sample_world)))
       = [(potrace_args "out/result.svg" (bmp_path_of temp_dir), 0)].
Proof.
  assert (H : png_to_svg (sample_env allow_all (Some potrace_ok)) "art.png"
                (Some "out/result.svg") true sample_world
              = (Return "out/result.svg",
                 snd (png_to_svg (sample_env allow_all (Some potrace_ok))
                        "art.png" (Some "out/result.svg") true sample_world))).
  { vm_compute. reflexivity. }
  split; [exact H|].
  destruct (return_follows_exit_zero _ _ _ _ _ _ _ H) as (d & _ & Hr).
  exists d. exact Hr.
Defined.

(** X4: the print of the guarded conversion is the only line a call adds to
    the output, a clean-up warning apart: the success line when the call
    returns, the error line when it raises. *)
Theorem one_report_per_call env input_file output_file keep w temp_dir :
  is_Some (fs w !! input_file) ->
  next_temp_dir env (fs w) = Some temp_dir ->
  exists warn,
    prints (trace (snd (png_to_svg env input_file output_file keep w)))
    = prints (trace w)
      ++ report input_file (fst (png_to_svg env input_file output_file keep w))
         :: warn
    /\ warning_only warn
    /\ (keep = true -> warn = []).
Proof.
  intros Hin Htmp.
  destruct (png_to_svg_outcome env input_file output_file keep w temp_dir
              Hin Htmp) as (r & w1 & Hout & ->). cbn [fst snd].
  destruct (cleanup_prints env temp_dir keep w1) as (warn & -> & Hw & Hk).
  exists warn. rewrite (conversion_outcome_prints _ _ _ _ _ _ _ Hout).
  rewrite <- app_assoc. repeat split; assumption.
Qed.

Lemma one_report_witness :
  is_Some (fs sample_world !! "bad.png")
  /\ exists warn,
       prints (trace (snd (png_to_svg
                             (sample_env refuse_rmdir (Some potrace_ok))
                             "bad.png" None false sample_world)))
       = Error_during_conversion (UnidentifiedImageError "bad.png") :: warn
       /\ warning_only warn.
Proof.
  assert (Hin : is_Some (fs sample_world !! "bad.png")) by (now eexists).
  split; [exact Hin|].
  destruct (one_report_per_call (sample_env refuse_rmdir (Some potrace_ok))
              "bad.png" None false sample_world "/tmp/tmpa1b2c3" Hin eq_refl)
    as (warn & H & Hw & _).
  exists warn. split; [exact H|exact Hw].
Defined.

(** X5: a call during which [potrace] was not run leaves, without retention
    and with the removals let through, the file system it found: failing
    at the decoder, at the bitmap or at the spawn costs nothing, not even
    an empty output file. *)
Theorem no_run_no_change env input_file output_file w :
  removals_allowed env (fs w) ->
  runs (trace (snd (png_to_svg env input_file output_file false w)))
  = runs (trace w) ->
  fs (snd (png_to_svg env input_file output_file false w)) = fs w.
Proof.
  intros Hok.
  destruct (fs w !! input_file) as [e|] eqn:He.
  - destruct (next_temp_dir env (fs w)) as [d|] eqn:Htmp.
    + destruct (png_to_svg_outcome env input_file output_file false w d)
        as (r & w1 & Hout & ->); [now exists e|assumption|]. cbn [snd].
      rewrite (without_run_runs _ _ (cleanup_without_run _ _ _ _)).
      intros Hruns.
      destruct (conversion_outcome_post _ _ _ _ _ _ _ Htmp Hout) as [Hd Hb].
      destruct (next_temp_dir_fresh _ _ _ Htmp) as [Hfd Hfb].
      apply cleanup_leaves; try assumption; [now apply Hok|].
      intros k Hkd Hkb.
      inversion Hout; subst; unfold_worlds;
        rewrite ?runs_app in Hruns; cbn [runs] in Hruns;
        rewrite ?app_nil_r in Hruns;
        try (now apply app_singleton_neq in Hruns);
        now rewrite ?lookup_insert_ne by congruence.
    + now rewrite png_to_svg_no_temp_dir by (eauto || assumption).
  - now rewrite png_to_svg_missing_input by assumption.
Qed.

Lemma no_run_no_change_witness :
  removals_allowed (sample_env allow_all None) (fs sample_world)
  /\ fs (snd (png_to_svg (sample_env allow_all None) "photo.png" None false
                sample_world))
     = fs sample_world.
Proof.
  assert (Hok : removals_allowed (sample_env allow_all None) (fs sample_world)).
  { intros d _. split; reflexivity. }
  split; [exact Hok|].
  apply (no_run_no_change (sample_env allow_all None) "photo.png" None
           sample_world Hok).
  vm_compute. reflexivity.
Defined.

(** X6: with [potrace] writing nothing but the file it is given as
    [--output], and every entry having the one path that names it (no
    links, no other spelling of a path), a call that made its directory
    changes the file system at three paths at most, whatever its outcome:
    its output file, its directory and its bitmap.  Without retention, and
    the removals let through, only the output file can differ. *)
Theorem changes_confined env input_file output_file keep w temp_dir :
  is_Some (fs w !! input_file) ->
  next_temp_dir env (fs w) = Some temp_dir ->
  let w' := snd (png_to_svg env input_file output_file keep w) in
  (forall k,
     k <> default_output input_file output_file ->
     k <> temp_dir -> k <> bmp_path_of temp_dir ->
     fs w' !! k = fs w !! k)
  /\ (keep = false -> removal_allowed env temp_dir ->
      forall k,
        k <> default_output input_file output_file ->
        fs w' !! k = fs w !! k).
Proof.
  intros Hin Htmp w'.
  assert (Hthree : forall k,
            k <> default_output input_file output_file ->
            k <> temp_dir -> k <> bmp_path_of temp_dir ->
            fs w' !! k = fs w !! k).
  { intros k Hko Hkd Hkb. subst w'.
    destruct (png_to_svg_split env input_file output_file keep w temp_dir
                Hin Htmp) as (r & w1 & Hg & ->). cbn [snd].
    rewrite cleanup_frame by assumption.
    destruct (guarded_conversion_post _ _ _ _ _ Htmp _ _ Hin Hg)
      as (_ & _ & Hframe).
    now apply Hframe. }
  split; [exact Hthree|].
  intros Hkeep Hok k Hko.
  destruct (next_temp_dir_fresh _ _ _ Htmp) as [Hfd Hfb].
  assert (Hgone : scratch_gone temp_dir w').
  { subst w' keep. now apply png_to_svg_scratch_gone. }
  destruct Hgone as [Hgb Hgd].
  destruct (decide (k = temp_dir)) as [->|Hkd]; [congruence|].
  destruct (decide (k = bmp_path_of temp_dir)) as [->|Hkb]; [congruence|].
  now apply Hthree.
Qed.

Lemma changes_confined_witness :
  is_Some (fs sample_world !! "photo.png")
  /\ fs (snd (png_to_svg (sample_env allow_all (Some potrace_fails))
                "photo.png" None false sample_world)) !! "art.png"
     = Some (File [2; 128]).
Proof.
  assert (Hin : is_Some (fs sample_world !! "photo.png")) by (now eexists).
  split; [exact Hin|].
  destruct (changes_confined (sample_env allow_all (Some potrace_fails))
              "photo.png" None false sample_world "/tmp/tmpa1b2c3" Hin eq_refl)
    as [_ H].
  rewrite H; [reflexivity|reflexivity|split; reflexivity|discriminate].
Defined.

(** X7: the net effect of a successful call without retention, when the
    operating system lets the removals through and every entry has the one
    path that names it: the file system the call found, with the bytes
    [potrace] wrote at the output path. *)
Theorem success_net_effect
    env input_file output_file w c img temp_dir run svg :
  fs w !! input_file = Some (File c) ->
  decode env c = Some img ->
  next_temp_dir env (fs w) = Some temp_dir ->
  refused env (SysWrite (bmp_path_of temp_dir)) = false ->
  which env "potrace" = Some run ->
  run (potrace_args (default_output input_file output_file)
         (bmp_path_of temp_dir))
    (fs (bitmap_saved env img temp_dir w)) = (0, Some svg) ->
  removal_allowed env temp_dir ->
  fs w !! default_output input_file output_file <> Some Dir ->
  default_output input_file output_file <> temp_dir ->
  default_output input_file output_file <> bmp_path_of temp_dir ->
  fst (png_to_svg env input_file output_file false w)
  = Return (default_output input_file output_file)
  /\ fs (snd (png_to_svg env input_file output_file false w))
     = <[default_output input_file output_file := File svg]> (fs w).
Proof.
  intros Hin Hdec Htmp Hwr Hwhich Hrun Hok Hnd Hod Hob.
  rewrite (png_to_svg_tool_succeeded env input_file output_file false w c img
             temp_dir Hin Hdec Htmp Hwr run (Some svg) Hwhich Hrun).
  cbn [fst snd]. split; [reflexivity|].
  destruct (next_temp_dir_fresh _ _ _ Htmp) as [Hfd Hfb].
  pose proof (bmp_path_ne temp_dir) as Hne.
  assert (Hout : conversion_outcome env input_file
                   (default_output input_file output_file) temp_dir w
                   (Return (default_output input_file output_file))
                   (printed (Successfully_converted input_file
                               (default_output input_file output_file))
                      (ran (potrace_args
                              (default_output input_file output_file)
                              (bmp_path_of temp_dir)) 0 (Some svg)
                         (bitmap_saved env img temp_dir w))))
    by (eapply Tool_succeeded; eassumption).
  destruct (conversion_outcome_post _ _ _ _ _ _ _ Htmp Hout) as [Hd Hb].
  apply cleanup_leaves; try assumption.
  - now rewrite lookup_insert_ne by congruence.
  - now rewrite lookup_insert_ne by congruence.
  - intros k Hkd Hkb. unfold_worlds.
    destruct (decide (k = default_output input_file output_file)) as [->|Hko].
    + rewrite lookup_insert_eq. apply tool_write_output; [reflexivity|].
      now rewrite !lookup_insert_ne by congruence.
    + rewrite (tool_write_other _ _ (default_output input_file output_file))
        by (reflexivity || assumption).
      now rewrite !lookup_insert_ne by congruence.
Qed.

Lemma success_net_effect_witness :
  fs sample_world !! "photo.png" = Some (File [1; 200; 100; 50])
  /\ fs (snd (png_to_svg (sample_env allow_all (Some potrace_ok)) "photo.png"
                None false sample_world))
     = <["photo.svg" := File [60; 115; 118; 103; 62]]> (fs sample_world).
Proof.
  split; [reflexivity|].
  destruct (success_net_effect (sample_env allow_all (Some potrace_ok))
              "photo.png" None sample_world [1; 200; 100; 50]
              (Image "RGB" (1, 1) [200; 100; 50]) "/tmp/tmpa1b2c3" potrace_ok
              [60; 115; 118; 103; 62]
              eq_refl eq_refl eq_refl eq_refl eq_refl eq_refl)
    as [_ H]; [split; reflexivity|discriminate..|exact H].
Defined.

Lemma conversion_outcome_keeps
    env input_file output_file temp_dir w r w1 k :
  conversion_outcome env input_file output_file temp_dir w r w1 ->
  k <> temp_dir -> k <> bmp_path_of temp_dir ->
  is_Some (fs w !! k) -> is_Some (fs w1 !! k).
Proof.
  intros H Hkd Hkb Hk. inversion H; subst; unfold_worlds;
    try apply tool_write_is_Some;
    now rewrite ?lookup_insert_ne by congruence.
Qed.

(** X8: a call never deletes what was there before it: every path that named
    an entry still names one after the call, whatever the outcome, the
    retention flag and the refusals of the operating system.  The clean-up
    removes only what the call itself made. *)
Theorem existing_entries_survive env input_file output_file keep w k :
  is_Some (fs w !! k) ->
  is_Some (fs (snd (png_to_svg env input_file output_file keep w)) !! k).
Proof.
  intros Hk.
  destruct (fs w !! input_file) as [e|] eqn:He.
  - destruct (next_temp_dir env (fs w)) as [d|] eqn:Htmp.
    + destruct (png_to_svg_outcome env input_file output_file keep w d)
        as (r & w1 & Hout & ->); [now exists e|assumption|]. cbn [snd].
      destruct Hk as [e' Hk].
      destruct (input_not_scratch env k d w Htmp _ Hk) as [Hkd Hkb].
      rewrite cleanup_frame by assumption.
      eapply conversion_outcome_keeps; eauto.
    + now rewrite png_to_svg_no_temp_dir by (eauto || assumption).
  - now rewrite png_to_svg_missing_input by assumption.
Qed.

Lemma existing_entries_survive_witness :
  is_Some (fs sample_world !! "out")
  /\ is_Some (fs (snd (png_to_svg (sample_env refuse_rmdir (Some potrace_fails))
                         "photo.png" (Some "out") false sample_world))
                !! "out").
Proof.
  assert (Hk : is_Some (fs sample_world !! "out")) by (now eexists).
  split; [exact Hk|].
  exact (existing_entries_survive
           (sample_env refuse_rmdir (Some potrace_fails)) "photo.png"
           (Some "out") false sample_world "out" Hk).
Defined.

(** X9: two calls in a row, every entry having the one path that names it:
    a later call cannot reuse the directory a call with retention left
    (the name it draws is a new one), and it leaves that directory and the
    bitmap in it as they are, as long as it is not given one of them as
    its output file. *)
Theorem retained_scratch_survives_next_call
    env input_file output_file w temp_dir
    env2 input_file2 output_file2 keep2 :
  is_Some (fs w !! input_file) ->
  next_temp_dir env (fs w) = Some temp_dir ->
  default_output input_file2 output_file2 <> temp_dir ->
  default_output input_file2 output_file2 <> bmp_path_of temp_dir ->
  let w1 := snd (png_to_svg env input_file output_file true w) in
  let w2 := snd (png_to_svg env2 input_file2 output_file2 keep2 w1) in
  (forall temp_dir2,
     next_temp_dir env2 (fs w1) = Some temp_dir2 ->
     temp_dir2 <> temp_dir /\ fs w1 !! temp_dir2 = None)
  /\ fs w2 !! temp_dir = Some Dir
  /\ (is_Some (fs w1 !! bmp_path_of temp_dir) ->
      fs w2 !! bmp_path_of temp_dir = fs w1 !! bmp_path_of temp_dir).
Proof.
  intros Hin Htmp Hod Hob w1 w2.
  destruct (png_to_svg_kept env input_file output_file w temp_dir Hin Htmp)
    as (Hd & _ & _). fold w1 in Hd.
  split; [|split].
  - intros d2 H2. apply next_temp_dir_fresh in H2 as [H2 _].
    split; [intros ->; congruence|exact H2].
  - subst w2. rewrite png_to_svg_frame; [exact Hd|now rewrite Hd|congruence].
  - intros Hb. subst w2. apply png_to_svg_frame; [exact Hb|congruence].
Qed.

Lemma retained_scratch_witness :
  is_Some (fs sample_world !! "photo.png")
  /\ next_temp_dir (later_env allow_all (Some potrace_ok))
       (fs (snd (png_to_svg (sample_env allow_all (Some potrace_ok))
                   "photo.png" None true sample_world)))
     = Some "/tmp/tmpd4e5f6"
  /\ fst (png_to_svg (later_env allow_all (Some potrace_ok)) "art.png" None
            true
            (snd (png_to_svg (sample_env allow_all (Some potrace_ok))
                    "photo.png" None true sample_world)))
     = Return "art.svg"
  /\ fs (snd (png_to_svg (later_env allow_all (Some potrace_ok)) "art.png"
                None true
                (snd (png_to_svg (sample_env allow_all (Some potrace_ok))
                        "photo.png" None true sample_world))))
       !! "/tmp/tmpa1b2c3"
     = Some Dir
  /\ fs (snd (png_to_svg (later_env allow_all (Some potrace_ok)) "art.png"
                None true
                (snd (png_to_svg (sample_env allow_all (Some potrace_ok))
                        "photo.png" None true sample_world))))
       !! "/tmp/tmpa1b2c3/temp.bmp"
     = Some (File [66; 77; 124]).
Proof.
  assert (Hin : is_Some (fs sample_world !! "photo.png")) by (now eexists).
  split; [exact Hin|]. split; [vm_compute; reflexivity|].
  split; [vm_compute; reflexivity|].
  destruct (retained_scratch_survives_next_call
              (sample_env allow_all (Some potrace_ok)) "photo.png" None
              sample_world "/tmp/tmpa1b2c3"
              (later_env allow_all (Some potrace_ok)) "art.png" None true
              Hin eq_refl) as (_ & Hd & Hb); [discriminate..|].
  split; [exact Hd|].
  change (bmp_path_of "/tmp/tmpa1b2c3") with "/tmp/tmpa1b2c3/temp.bmp" in Hb.
  rewrite Hb; [vm_compute; reflexivity|].
  eexists. vm_compute. reflexivity.
Defined.



(** ** More of [os.path.splitext], as line 69 uses it *)

Lemma rfind_from_bounds c s i :
  0 <= i ->
  Path.rfind_from c s i = -1
  \/ i <= Path.rfind_from c s i < i + Z.of_nat (String.length s).
Proof.
  revert i. induction s as [|a s IH]; intros i Hi; [now left|].
  cbn [Path.rfind_from String.length].
  destruct (IH (i + 1)) as [Hr|Hr]; [lia|rewrite Hr; cbn|].
  - destruct (Ascii.eqb a c); [right; lia|now left].
  - destruct (Z.leb_spec 0 (Path.rfind_from c s (i + 1))); [right; lia|lia].
Qed.

Lemma rfind_from_none c s i :
  0 <= i -> Path.rfind_from c s i = -1 -> occurs c s = false.
Proof.
  revert i. induction s as [|a s IH]; intros i Hi; [reflexivity|].
  cbn [Path.rfind_from occurs].
  destruct (rfind_from_bounds c s (i + 1)) as [Hr|Hr]; [lia| |].
  - rewrite Hr. cbn. destruct (Ascii.eqb a c); [lia|].
    intros _. apply (IH (i + 1)); [lia|assumption].
  - destruct (Z.leb_spec 0 (Path.rfind_from c s (i + 1))); lia.
Qed.

(** A found index is the place of the last [c]. *)
Lemma rfind_from_found c s i :
  0 <= i -> 0 <= Path.rfind_from c s i ->
  exists pre post,
    s = pre +:+ String c post
    /\ Path.rfind_from c s i = i + Z.of_nat (String.length pre)
    /\ occurs c post = false.
Proof.
  revert i. induction s as [|a s IH]; intros i Hi; [cbn; lia|].
  cbn [Path.rfind_from].
  destruct (Z.leb_spec 0 (Path.rfind_from c s (i + 1))) as [Hr|Hr].
  - intros _. destruct (IH (i + 1)) as (pre & post & -> & Hidx & Hpost);
      [lia|assumption|].
    exists (String a pre), post. rewrite Hidx. cbn [String.length].
    repeat split; [lia|assumption].
  - destruct (Ascii.eqb_spec a c) as [->|Hne]; [|lia]. intros _.
    exists "", s. cbn [String.length]. repeat split; [lia|].
    apply (rfind_from_none c s (i + 1)); [lia|].
    destruct (rfind_from_bounds c s (i + 1)); lia.
Qed.

Lemma rfind_from_in_suffix c s t i :
  0 <= i -> occurs c t = true ->
  i + Z.of_nat (String.length s) <= Path.rfind_from c (s +:+ t) i.
Proof.
  intros Hi Ht. revert i Hi. induction s as [|a s IH]; intros i Hi.
  - change ("" +:+ t) with t. cbn [String.length].
    destruct (rfind_from_bounds c t i Hi) as [Hr|Hr]; [|lia].
    apply rfind_from_none in Hr; [congruence|assumption].
  - change (String a s +:+ t) with (String a (s +:+ t)).
    cbn [Path.rfind_from String.length].
    specialize (IH (i + 1)).
    destruct (Z.leb_spec 0 (Path.rfind_from c (s +:+ t) (i + 1))); lia.
Qed.

(** The two results of [splitext]: no extension, or a split at the last
    dot of the path, with neither dot nor separator after it. *)
Lemma splitext_cases p :
  Path.splitext p = (p, "")
  \/ exists root ext,
       p = root +:+ String "." ext
       /\ Path.splitext p = (root, String "." ext)
       /\ occurs "." ext = false
       /\ occurs "/" ext = false.
Proof.
  unfold Path.splitext, Path.rfind.
  destruct (Z.ltb_spec (Path.rfind_from "/" p 0) (Path.rfind_from "." p 0))
    as [Hlt|Hge]; [|now left].
  destruct (Path.skip_leading_dots p (Path.rfind_from "/" p 0 + 1)
              (Path.rfind_from "." p 0)
              (Z.to_nat (Path.rfind_from "." p 0
                         - (Path.rfind_from "/" p 0 + 1))));
    [|now left].
  cbn [andb]. right.
  assert (Hsep : -1 <= Path.rfind_from "/" p 0)
    by (destruct (rfind_from_bounds "/" p 0); lia).
  destruct (rfind_from_found "." p 0) as (root & ext & Hp & Hidx & Hdot);
    [lia|lia|].
  exists root, ext. rewrite Hidx.
  replace (Z.to_nat (0 + Z.of_nat (String.length root)))
    with (String.length root) by lia.
  split; [exact Hp|]. split; [|split; [exact Hdot|]].
  - rewrite Hp at 1 2 3. rewrite substring_append_l.
    replace (String.length (root +:+ String "." ext) - String.length root)%nat
      with (String.length (String "." ext))
      by (rewrite length_append; lia).
    now rewrite substring_append_r.
  - destruct (occurs "/" ext) eqn:Hocc; [|reflexivity].
    pose proof (rfind_from_in_suffix "/" (root +:+ ".") ext 0) as Hlow.
    rewrite append_assoc in Hlow.
    change ("." +:+ ext) with (String "." ext) in Hlow.
    rewrite <- Hp, length_append in Hlow. cbn [String.length] in Hlow.
    specialize (Hlow ltac:(lia) Hocc). lia.
Qed.

(** X11: [root + ext == path]: the two parts [os.path.splitext] returns always
    make the path again. *)
Theorem splitext_root_ext p :
  fst (Path.splitext p) +:+ snd (Path.splitext p) = p.
Proof.
  destruct (splitext_cases p) as [->|(root & ext & Hp & -> & _)]; cbn [fst snd].
  - clear. induction p as [|a p IH]; [reflexivity|].
    change (String a p +:+ "") with (String a (p +:+ "")). now rewrite IH.
  - now rewrite <- Hp.
Qed.

(** X12: the extension [os.path.splitext] returns is empty, or it is a dot
    followed by characters that are neither dots nor separators: it never
    reaches into a directory name. *)
Theorem splitext_ext_shape p :
  snd (Path.splitext p) = ""
  \/ exists ext,
       snd (Path.splitext p) = String "." ext
       /\ occurs "." ext = false
       /\ occurs "/" ext = false.
Proof.
  destruct (splitext_cases p) as [->|(root & ext & _ & -> & Hd & Hs)];
    [now left|right; eauto].
Qed.

Lemma all_dots_no_sep s : all_dots s = true -> occurs "/" s = false.
Proof.
  induction s as [|a s IH]; [reflexivity|]. cbn [all_dots occurs].
  intros [Ha Hs]%andb_true_iff. apply Ascii.eqb_eq in Ha as ->.
  now rewrite IH.
Qed.

(** X13: a file name without extension gets [.svg] appended: this is so when
    the last component has no dot at all, whatever dots its directories
    have, and when its only dots are leading ones (a hidden file). *)
Theorem default_output_without_extension dir dots rest :
  dir_part dir -> all_dots dots = true ->
  occurs "." rest = false -> occurs "/" rest = false ->
  default_output (dir +:+ rest) None = (dir +:+ rest) +:+ ".svg"
  /\ default_output (dir +:+ dots +:+ "." +:+ rest) None
     = (dir +:+ dots +:+ "." +:+ rest) +:+ ".svg".
Proof.
  intros Hdir Hdots Hdot Hsep. unfold default_output. split.
  - assert (Hs : Path.rfind "/" (dir +:+ rest) + 1
                 = Z.of_nat (String.length dir)).
    { unfold Path.rfind. rewrite rfind_from_app_absent by assumption.
      now apply rfind_sep_dir_part. }
    assert (Hd : Path.rfind "." (dir +:+ rest) < Z.of_nat (String.length dir)).
    { unfold Path.rfind. rewrite rfind_from_app_absent by assumption.
      destruct (rfind_from_bounds "." dir 0); lia. }
    unfold Path.splitext.
    destruct (Z.ltb_spec (Path.rfind "/" (dir +:+ rest))
                (Path.rfind "." (dir +:+ rest))); [lia|reflexivity].
  - assert (Hs : Path.rfind "/" (dir +:+ dots +:+ "." +:+ rest) + 1
                 = Z.of_nat (String.length dir)).
    { unfold Path.rfind. rewrite rfind_from_app_absent.
      - now apply rfind_sep_dir_part.
      - pose proof (all_dots_no_sep _ Hdots) as Hds. clear -Hds Hsep.
        induction dots as [|a dots IH].
        + change ("" +:+ "." +:+ rest) with (String "." rest).
          cbn [occurs]. now rewrite Hsep.
        + change (String a dots +:+ "." +:+ rest)
            with (String a (dots +:+ "." +:+ rest)).
          cbn [occurs] in *. apply orb_false_iff in Hds as [-> Hn].
          now rewrite IH. }
    assert (Hd : Path.rfind "." (dir +:+ dots +:+ "." +:+ rest)
                 = Z.of_nat (String.length (dir +:+ dots))).
    { unfold Path.rfind. rewrite <- append_assoc.
      change ("." +:+ rest) with (String "." rest).
      rewrite rfind_from_last by (assumption || lia). lia. }
    unfold Path.splitext. rewrite Hd.
    replace (Path.rfind "/" (dir +:+ dots +:+ "." +:+ rest))
      with (Z.of_nat (String.length dir) - 1) by lia.
    replace (Z.of_nat (String.length dir) - 1 + 1)
      with (Z.of_nat (String.length dir)) by lia.
    rewrite length_append.
    replace (Z.to_nat (Z.of_nat (String.length dir + String.length dots)
                       - Z.of_nat (String.length dir)))
      with (String.length dots) by lia.
    replace (Z.of_nat (String.length dir + String.length dots))
      with (Z.of_nat (String.length dir) + Z.of_nat (String.length dots))
      by lia.
    rewrite skip_leading_dots_name, Hdots. cbn [negb].
    now rewrite andb_false_r.
Qed.

Lemma default_output_without_extension_witness :
  default_output ("my.pictures/" +:+ "photo") None = "my.pictures/photo.svg"
  /\ default_output ("" +:+ "" +:+ "." +:+ "hidden") None = ".hidden.svg".
Proof.
  destruct (default_output_without_extension "my.pictures/" "" "photo")
    as [H _]; [right; now exists "my.pictures"|reflexivity..|].
  destruct (default_output_without_extension "" "" "hidden")
    as [_ H']; [now left|reflexivity..|].
  split; [exact H|exact H'].
Defined.

(** X14: with no output path given, the output path line 69 computes is
    the input path itself exactly when the extension of the input path is
    [.svg]. *)
Theorem default_output_is_input_iff input_file :
  default_output input_file None = input_file
  <-> snd (Path.splitext input_file) = ".svg".
Proof.
  unfold default_output.
  destruct (splitext_cases input_file) as [->|(root & ext & Hp & -> & _)];
    cbn [fst snd].
  - split; [|discriminate]. intros H.
    apply (f_equal String.length) in H. rewrite length_append in H.
    cbn [String.length] in H. lia.
  - rewrite Hp at 1. split.
    + intros H. symmetry. now apply (inj (String.app root)) in H.
    + now intros ->.
Qed.

(** ** The successful path, effect by effect *)

Lemma cleanup_trace_removed env temp_dir w1 :
  removal_allowed env temp_dir ->
  fs w1 !! temp_dir = Some Dir ->
  is_file (fs w1 !! bmp_path_of temp_dir) = true ->
  trace (snd (cleanup env temp_dir false w1))
  = trace w1 ++ [Removed (bmp_path_of temp_dir); RemovedDir temp_dir].
Proof.
  intros [Hrm Hrd] Hd Hb. pose proof (bmp_path_ne temp_dir) as Hne.
  unfold cleanup, try_except, remove_temporary_files, bind, os_path_exists.
  cbn [negb]. fold (bmp_path_of temp_dir).
  destruct (fs w1 !! bmp_path_of temp_dir) as [[|c]|] eqn:Hbmp;
    try discriminate.
  unfold os_remove. rewrite Hrm, Hbmp.
  unfold os_rmdir. rewrite Hrd. unfold_worlds.
  rewrite lookup_delete_ne by assumption. rewrite Hd. cbn [snd trace].
  now rewrite <- app_assoc.
Qed.

(** X16: the order of the effects of a successful call without retention,
    when the operating system lets the removals through: the directory is
    made, the bitmap saved, [potrace] run once, the success line printed,
    and only then the bitmap removed, before its directory (which
    [os.rmdir] needs empty). *)
Theorem success_trace env input_file output_file w c img temp_dir run out :
  fs w !! input_file = Some (File c) ->
  decode env c = Some img ->
  next_temp_dir env (fs w) = Some temp_dir ->
  refused env (SysWrite (bmp_path_of temp_dir)) = false ->
  which env "potrace" = Some run ->
  run (potrace_args (default_output input_file output_file)
         (bmp_path_of temp_dir))
    (fs (bitmap_saved env img temp_dir w)) = (0, out) ->
  removal_allowed env temp_dir ->
  trace (snd (png_to_svg env input_file output_file false w))
  = trace w
    ++ [MadeDir temp_dir;
        Saved (bmp_path_of temp_dir) (encode_bmp env (grayscale env img));
        Ran (potrace_args (default_output input_file output_file)
               (bmp_path_of temp_dir)) 0;
        Printed (Successfully_converted input_file
                   (default_output input_file output_file));
        Removed (bmp_path_of temp_dir);
        RemovedDir temp_dir].
Proof.
  intros Hin Hdec Htmp Hwr Hwhich Hrun Hok.
  rewrite (png_to_svg_tool_succeeded env input_file output_file false w c img
             temp_dir Hin Hdec Htmp Hwr run out Hwhich Hrun).
  cbn [snd].
  pose proof (bmp_path_ne temp_dir) as Hne.
  rewrite cleanup_trace_removed; try assumption.
  - unfold_worlds. now rewrite <- !app_assoc.
  - unfold_worlds. apply tool_write_dir.
    now rewrite lookup_insert_ne, lookup_insert_eq.
  - unfold_worlds. apply tool_write_file. now rewrite lookup_insert_eq.
Qed.

Lemma success_trace_witness :
  fs sample_world !! "art.png" = Some (File [2; 128])
  /\ trace (snd (png_to_svg (sample_env allow_all (Some potrace_ok)) "art.png"
                   (Some "out/result.svg") false sample_world))
     = [MadeDir "/tmp/tmpa1b2c3";
        Saved "/tmp/tmpa1b2c3/temp.bmp" [66; 77; 128];
        Ran (potrace_args "out/result.svg" "/tmp/tmpa1b2c3/temp.bmp") 0;
        Printed (Successfully_converted "art.png" "out/result.svg");
        Removed "/tmp/tmpa1b2c3/temp.bmp";
        RemovedDir "/tmp/tmpa1b2c3"].
Proof.
  split; [reflexivity|].
  apply (success_trace (sample_env allow_all (Some potrace_ok)) "art.png"
           (Some "out/result.svg") sample_world [2; 128]
           (Image "L" (1, 1) [128]) "/tmp/tmpa1b2c3" potrace_ok
           (Some [60; 115; 118; 103; 62])
           eq_refl eq_refl eq_refl eq_refl eq_refl eq_refl).
  split; reflexivity.
Defined.

(** X15: the returned path is not checked: when [potrace] exits with status 0
    without having written anything, the call still prints its success
    line and returns the output path, at which no file exists. *)
Theorem returned_path_not_checked
    env input_file output_file keep w c img temp_dir run :
  fs w !! input_file = Some (File c) ->
  decode env c = Some img ->
  next_temp_dir env (fs w) = Some temp_dir ->
  refused env (SysWrite (bmp_path_of temp_dir)) = false ->
  which env "potrace" = Some run ->
  run (potrace_args (default_output input_file output_file)
         (bmp_path_of temp_dir))
    (fs (bitmap_saved env img temp_dir w)) = (0, None) ->
  fs w !! default_output input_file output_file = None ->
  default_output input_file output_file <> temp_dir ->
  default_output input_file output_file <> bmp_path_of temp_dir ->
  fst (png_to_svg env input_file output_file keep w)
  = Return (default_output input_file output_file)
  /\ In (Printed (Successfully_converted input_file
                   (default_output input_file output_file)))
       (trace (snd (png_to_svg env input_file output_file keep w)))
  /\ fs (snd (png_to_svg env input_file output_file keep w))
       !! default_output input_file output_file
     = None.
Proof.
  intros Hin Hdec Htmp Hwr Hwhich Hrun Hnone Hod Hob.
  rewrite (png_to_svg_tool_succeeded env input_file output_file keep w c img
             temp_dir Hin Hdec Htmp Hwr run None Hwhich Hrun).
  cbn [fst snd]. split; [reflexivity|]. split.
  - destruct (cleanup_without_run env temp_dir keep
                (printed (Successfully_converted input_file
                            (default_output input_file output_file))
                   (ran (potrace_args (default_output input_file output_file)
                           (bmp_path_of temp_dir)) 0 None
                      (bitmap_saved env img temp_dir w))))
      as (rest & -> & _).
    unfold_worlds. apply in_or_app. left. apply in_or_app. right.
    now left.
  - rewrite cleanup_frame by assumption. unfold_worlds. cbn [tool_write].
    now rewrite !lookup_insert_ne by congruence.
Qed.

Lemma returned_path_not_checked_witness :
  fs sample_world !! default_output "photo.png" None = None
  /\ fst (png_to_svg (sample_env allow_all (Some (fun _ _ => (0, None))))
            "photo.png" None false sample_world)
     = Return "photo.svg"
  /\ fs (snd (png_to_svg (sample_env allow_all (Some (fun _ _ => (0, None))))
                "photo.png" None false sample_world)) !! "photo.svg"
     = None.
Proof.
  split; [reflexivity|].
  destruct (returned_path_not_checked
              (sample_env allow_all (Some (fun _ _ => (0, None))))
              "photo.png" None false sample_world [1; 200; 100; 50]
              (Image "RGB" (1, 1) [200; 100; 50]) "/tmp/tmpa1b2c3"
              (fun _ _ => (0, None))
              eq_refl eq_refl eq_refl eq_refl eq_refl eq_refl eq_refl)
    as (Hr & _ & Hfs); [discriminate..|].
  split; [exact Hr|exact Hfs].
Defined.

(** ** A readable header before corrupt data *)

(** [cut.png] has an RGB header: it opens, and [img.convert] fails when it
    loads the data.  [gray.png] has an L header: the conversion is skipped
    and it is [img.save] that fails, before any file is written.  Both
    calls end like a failed [Image.open]: error printed, directory
    removed. *)
Example truncated_inputs :
  png_to_svg (sample_env allow_all (Some potrace_ok)) "cut.png" None false
    truncated_world
  = (Raise (OSError "image file is truncated"),
     World (fs truncated_world)
       [MadeDir "/tmp/tmpa1b2c3";
        Printed (Error_during_conversion (OSError "image file is truncated"));
        RemovedDir "/tmp/tmpa1b2c3"])
  /\ png_to_svg (sample_env allow_all (Some potrace_ok)) "gray.png" None false
       truncated_world
     = (Raise (OSError "image file is truncated"),
        World (fs truncated_world)
          [MadeDir "/tmp/tmpa1b2c3";
           Printed (Error_during_conversion
                      (OSError "image file is truncated"));
           RemovedDir "/tmp/tmpa1b2c3"]).
Proof. split; vm_compute; reflexivity. Qed.
